(** * Hedera SDK value types: Hbar amounts, transaction identifiers,
      exchange-rate projection

    A shallow embedding of [Hbar.ts] (the amount type over bignumber.js),
    of the transaction-identifier class and of the exchange-rate mappers,
    followed by the properties proved about them. *)

From Stdlib Require Import ZArith QArith Qreduction Lia Lqa Bool List.
From Stdlib Require Qcanon.
From Stdlib Require Import Strings.String Strings.Ascii.
From Stdlib Require Import Decimal DecimalString DecimalZ DecimalPos.
Import ListNotations.

(** ** Results of code that may throw *)

Inductive result (E A : Type) : Type :=
| Ok (a : A)
| Throw (e : E).

Arguments Ok {E A} a.
Arguments Throw {E A} e.

Definition bind {E A B} (r : result E A) (k : A -> result E B) : result E B :=
  match r with
  | Ok a => k a
  | Throw e => Throw e
  end.

Declare Scope result_scope.
Delimit Scope result_scope with result.
Notation "x <- r ;; k" := (bind r (fun x => k))
  (at level 61, r at next level, right associativity) : result_scope.
Notation "r ;;; k" := (bind r (fun _ => k))
  (at level 61, right associativity) : result_scope.

Definition returns {E A} (r : result E A) : bool :=
  match r with Ok _ => true | Throw _ => false end.

(** ** bignumber.js

    A [BigNumber] is NaN, a signed infinity or a finite decimal.  Finite
    values are kept as rationals in lowest terms; every finite value the
    operations below produce has a power of ten as denominator.  The sign
    of zero, which bignumber.js tracks, is not represented: a zero is
    never negative here.  The library runs in its default configuration:
    [DECIMAL_PLACES = 20], [ROUNDING_MODE = ROUND_HALF_UP]. *)

Module BigNumber.

Inductive t : Type :=
| NaN
| Infinity (negative : bool)
| Fin (q : Q).

Definition ofZ (z : Z) : t := Fin (inject_Z z).

Definition DECIMAL_PLACES : Z := 20.

(** ROUND_HALF_UP: to the nearest integer, a tie goes away from zero. *)
Definition round_half_up (q : Q) : Z :=
  let n := Qnum q in
  let d := Zpos (Qden q) in
  Z.sgn n * ((2 * Z.abs n + d) / (2 * d)).

(** Rounds a quotient to [DECIMAL_PLACES] decimal places. *)
Definition round_dp (q : Q) : Q :=
  Qred (inject_Z (round_half_up (q * inject_Z (10 ^ DECIMAL_PLACES)))
        / inject_Z (10 ^ DECIMAL_PLACES)).

Definition qzero (q : Q) : bool := (Qnum q =? 0)%Z.
Definition qneg (q : Q) : bool := (Qnum q <? 0)%Z.

Definition isNaN (x : t) : bool :=
  match x with NaN => true | _ => false end.

Definition isFinite (x : t) : bool :=
  match x with Fin _ => true | _ => false end.

Definition isInteger (x : t) : bool :=
  match x with
  | Fin q => (Zpos (Qden (Qred q)) =? 1)%Z
  | _ => false
  end.

Definition isZero (x : t) : bool :=
  match x with Fin q => qzero q | _ => false end.

(** [isNegative] and [isPositive] test the sign.  In bignumber.js a
    zero has a sign of its own, and the two tests report it; here a
    zero counts as positive.  No property below depends on what the two
    tests give on a zero. *)
Definition isNegative (x : t) : bool :=
  match x with
  | NaN => false
  | Infinity n => n
  | Fin q => qneg q
  end.

Definition isPositive (x : t) : bool :=
  match x with
  | NaN => false
  | Infinity n => negb n
  | Fin q => negb (qneg q)
  end.

Definition negated (x : t) : t :=
  match x with
  | NaN => NaN
  | Infinity n => Infinity (negb n)
  | Fin q => Fin (Qred (- q))
  end.

Definition multipliedBy (x y : t) : t :=
  match x, y with
  | NaN, _ | _, NaN => NaN
  | Infinity a, Infinity b => Infinity (xorb a b)
  | Infinity a, Fin q | Fin q, Infinity a =>
      if qzero q then NaN else Infinity (xorb a (qneg q))
  | Fin p, Fin q => Fin (Qred (p * q))
  end.

Definition dividedBy (x y : t) : t :=
  match x, y with
  | NaN, _ | _, NaN => NaN
  | Infinity _, Infinity _ => NaN
  | Infinity a, Fin q => Infinity (xorb a (qneg q))
  | Fin _, Infinity _ => Fin 0
  | Fin p, Fin q =>
      if qzero q
      then (if qzero p then NaN else Infinity (qneg p))
      else Fin (round_dp (p / q))
  end.

Definition plus (x y : t) : t :=
  match x, y with
  | NaN, _ | _, NaN => NaN
  | Infinity a, Infinity b => if Bool.eqb a b then Infinity a else NaN
  | Infinity a, Fin _ | Fin _, Infinity a => Infinity a
  | Fin p, Fin q => Fin (Qred (p + q))
  end.

Definition minus (x y : t) : t :=
  match x, y with
  | NaN, _ | _, NaN => NaN
  | Infinity a, Infinity b => if Bool.eqb a b then NaN else Infinity a
  | Infinity a, Fin _ => Infinity a
  | Fin _, Infinity b => Infinity (negb b)
  | Fin p, Fin q => Fin (Qred (p - q))
  end.

(** [x.pow(n)] for an integer exponent [n >= 0] (POW_PRECISION is 0:
    the power is exact). *)
Definition pow (x : t) (n : Z) : t :=
  match x with
  | NaN => NaN
  | Infinity a => if (n =? 0)%Z then ofZ 1 else Infinity (a && Z.odd n)
  | Fin q => Fin (Qred (q ^ n))
  end.

(** [comparedTo] is [null] when either operand is NaN. *)
Definition comparedTo (x y : t) : option comparison :=
  match x, y with
  | NaN, _ | _, NaN => None
  | Infinity a, Infinity b =>
      Some (if Bool.eqb a b then Eq else if a then Lt else Gt)
  | Infinity a, Fin _ => Some (if a then Lt else Gt)
  | Fin _, Infinity b => Some (if b then Gt else Lt)
  | Fin p, Fin q => Some (p ?= q)
  end.

Definition isEqualTo (x y : t) : bool :=
  match comparedTo x y with Some Eq => true | _ => false end.

Definition isGreaterThan (x y : t) : bool :=
  match comparedTo x y with Some Gt => true | _ => false end.

Definition isLessThan (x y : t) : bool :=
  match comparedTo x y with Some Lt => true | _ => false end.

Definition isGreaterThanOrEqualTo (x y : t) : bool :=
  match comparedTo x y with Some Gt | Some Eq => true | _ => false end.

Definition isLessThanOrEqualTo (x y : t) : bool :=
  match comparedTo x y with Some Lt | Some Eq => true | _ => false end.

End BigNumber.

(** ** HbarUnit *)

Module HbarUnit.

Inductive t : Type :=
| Tinybar | Microbar | Millibar | Hbar | Kilobar | Megabar | Gigabar.

Definition toString (u : t) : string :=
  match u with
  | Tinybar => "tinybar"
  | Microbar => "microbar"
  | Millibar => "millibar"
  | Hbar => "hbar"
  | Kilobar => "kilobar"
  | Megabar => "megabar"
  | Gigabar => "gigabar"
  end.

Definition _toTinybarCount (u : t) : BigNumber.t :=
  match u with
  | Tinybar => BigNumber.ofZ 1
  | Microbar => BigNumber.ofZ 100
  | Millibar => BigNumber.ofZ 100000
  | Hbar => BigNumber.ofZ 100000000
  | Kilobar =>
      BigNumber.multipliedBy (BigNumber.ofZ 100000000) (BigNumber.ofZ 1000)
  | Megabar =>
      BigNumber.multipliedBy (BigNumber.ofZ 100000000) (BigNumber.ofZ 1000000)
  | Gigabar =>
      BigNumber.multipliedBy (BigNumber.ofZ 100000000)
                             (BigNumber.ofZ 1000000000)
  end.

(** The conversion factor as an integer, for stating properties:
    [_toTinybarCount_factor] below shows it is what [_toTinybarCount]
    returns. *)
Definition factor (u : t) : Z :=
  match u with
  | Tinybar => 1
  | Microbar => 10 ^ 2
  | Millibar => 10 ^ 5
  | Hbar => 10 ^ 8
  | Kilobar => 10 ^ 11
  | Megabar => 10 ^ 14
  | Gigabar => 10 ^ 17
  end.

End HbarUnit.

(** ** Hbar *)

Module Hbar.

Record t : Type := mk {
  _tinybar : BigNumber.t;
  _unit : HbarUnit.t
}.

(** [HbarRangeError] carries the amount it was raised for. *)
Inductive HbarRangeError : Type :=
| RangeError (amount : t).

Definition res := result HbarRangeError.

(** An argument of type [number | BigNumber | string].  Each form
    carries the decimal that [new BigNumber(amount)] reads from it: for
    a number that is the value of its decimal string, and comparing the
    number with [2 ** 53] agrees with comparing that decimal, [2 ** 53]
    being a double itself. *)
Inductive Value : Type :=
| Number (n : BigNumber.t)
| Big (b : BigNumber.t)
| Str (s : BigNumber.t).

(** [amount instanceof BigNumber ? amount : new BigNumber(amount)] *)
Definition toBigNumber (amount : Value) : BigNumber.t :=
  match amount with
  | Number n => n
  | Big b => b
  | Str s => s
  end.

Definition convertToTinybar (amount : Value) (unit : HbarUnit.t)
  : BigNumber.t :=
  let bnAmount := toBigNumber amount in
  BigNumber.multipliedBy bnAmount (HbarUnit._toTinybarCount unit).

Definition maxTinybar : BigNumber.t :=
  BigNumber.minus (BigNumber.pow (BigNumber.ofZ 2) 63) (BigNumber.ofZ 1).
Definition maxHbar : BigNumber.t :=
  BigNumber.dividedBy maxTinybar (HbarUnit._toTinybarCount HbarUnit.Hbar).

Definition minTinybar : BigNumber.t :=
  BigNumber.pow (BigNumber.ofZ (-2)) 63.
Definition minHbar : BigNumber.t :=
  BigNumber.dividedBy minTinybar (HbarUnit._toTinybarCount HbarUnit.Hbar).

Definition _check (allowNegative : bool) (this : t) : res unit :=
  if BigNumber.isNegative (_tinybar this) && negb allowNegative
     && BigNumber.isLessThan (_tinybar this) maxTinybar
  then Throw (RangeError this)
  else if BigNumber.isGreaterThan (_tinybar this) maxTinybar
  then Throw (RangeError this)
  else Ok tt.

(** [new Hbar(amount)] *)
Definition new (amount : Value) : res t :=
  let bnAmount := toBigNumber amount in
  let this :=
    mk (BigNumber.multipliedBy bnAmount
          (HbarUnit._toTinybarCount HbarUnit.Hbar))
       HbarUnit.Hbar in
  (_check true this ;;; Ok this)%result.

Definition MAX : res t := new (Big maxHbar).
Definition MIN : res t := new (Big minHbar).

Definition from (amount : Value) (unit : HbarUnit.t) : res t :=
  let bnAmount := toBigNumber amount in
  let tinybar :=
    BigNumber.multipliedBy bnAmount (HbarUnit._toTinybarCount unit) in
  let hbar :=
    BigNumber.dividedBy tinybar (HbarUnit._toTinybarCount HbarUnit.Hbar) in
  new (Big hbar).

(** [typeof amount === "number" && amount >= 2 ** 53] *)
Definition imprecise (amount : Value) : bool :=
  match amount with
  | Number n => BigNumber.isGreaterThanOrEqualTo n (BigNumber.ofZ (2 ^ 53))
  | _ => false
  end.

Definition fromTinybar (amount : Value) : res t :=
  if imprecise amount
  then (h <- new amount ;; Throw (RangeError h))%result
  else
    let bnAmount := toBigNumber amount in
    new (Big (BigNumber.dividedBy bnAmount
                (HbarUnit._toTinybarCount HbarUnit.Hbar))).

Definition zero : res t := new (Big (BigNumber.ofZ 0)).
Definition ZERO : res t := zero.

(** [as(unit)] *)
Definition as_ (this : t) (unit : HbarUnit.t) : BigNumber.t :=
  if String.eqb (HbarUnit.toString unit) "tinybar"
  then _tinybar this
  else BigNumber.dividedBy (_tinybar this) (HbarUnit._toTinybarCount unit).

Definition value (this : t) : BigNumber.t := as_ this HbarUnit.Hbar.
Definition asTinybar (this : t) : BigNumber.t := as_ this HbarUnit.Tinybar.

Definition multipliedBy (this : t) (amount : Value) : res t :=
  new (Big (BigNumber.multipliedBy (_tinybar this) (toBigNumber amount))).

(** The right operand of the overloaded operations: another [Hbar], or
    a raw amount with its unit. *)
Inductive Operand : Type :=
| OfHbar (hbar : t)
| OfUnit (amount : Value) (unit : HbarUnit.t).

(** [amount instanceof Hbar ? amount._tinybar
     : convertToTinybar(amount, unit)] *)
Definition operandTinybar (o : Operand) : BigNumber.t :=
  match o with
  | OfHbar hbar => _tinybar hbar
  | OfUnit amount unit => convertToTinybar amount unit
  end.

Definition plus (this : t) (o : Operand) : res t :=
  new (Big (BigNumber.dividedBy
              (BigNumber.plus (_tinybar this) (operandTinybar o))
              (HbarUnit._toTinybarCount HbarUnit.Hbar))).

Definition minus (this : t) (o : Operand) : res t :=
  new (Big (BigNumber.dividedBy
              (BigNumber.minus (_tinybar this) (operandTinybar o))
              (HbarUnit._toTinybarCount HbarUnit.Hbar))).

Definition isEqualTo (this : t) (o : Operand) : bool :=
  BigNumber.isEqualTo (_tinybar this) (operandTinybar o).
Definition isGreaterThan (this : t) (o : Operand) : bool :=
  BigNumber.isGreaterThan (_tinybar this) (operandTinybar o).
Definition isGreaterThanOrEqualTo (this : t) (o : Operand) : bool :=
  BigNumber.isGreaterThanOrEqualTo (_tinybar this) (operandTinybar o).
Definition isLessThan (this : t) (o : Operand) : bool :=
  BigNumber.isLessThan (_tinybar this) (operandTinybar o).
Definition isLessThanOrEqualTo (this : t) (o : Operand) : bool :=
  BigNumber.isLessThanOrEqualTo (_tinybar this) (operandTinybar o).
Definition comparedTo (this : t) (o : Operand) : option comparison :=
  BigNumber.comparedTo (_tinybar this) (operandTinybar o).

Definition isZero (this : t) : bool := BigNumber.isZero (_tinybar this).

Definition negated (this : t) : res t :=
  new (Big (BigNumber.dividedBy
              (BigNumber.negated (_tinybar this))
              (HbarUnit._toTinybarCount HbarUnit.Hbar))).

Definition isNegative (this : t) : bool :=
  BigNumber.isNegative (_tinybar this).
Definition isPositive (this : t) : bool :=
  BigNumber.isPositive (_tinybar this).

(** The amounts the class hands out: the results of the constructor, of
    the static factories and of the arithmetic operations. *)
Inductive Produced : t -> Prop :=
| by_new amount h : new amount = Ok h -> Produced h
| by_from amount unit h : from amount unit = Ok h -> Produced h
| by_fromTinybar amount h : fromTinybar amount = Ok h -> Produced h
| by_multipliedBy this amount h : multipliedBy this amount = Ok h -> Produced h
| by_plus this o h : plus this o = Ok h -> Produced h
| by_minus this o h : minus this o = Ok h -> Produced h
| by_negated this h : negated this = Ok h -> Produced h.

End Hbar.

(** ** JavaScript values *)

Inductive JsError : Type :=
| TypeError (message : string)
| ReferenceError (message : string)
| Error (message : string).

(** A value that may be [undefined] or [null]. *)
Inductive nullable (A : Type) : Type :=
| Undefined
| Null
| Val (a : A).

Arguments Undefined {A}.
Arguments Null {A}.
Arguments Val {A} a.

(** Truthiness of a [?boolean]. *)
Definition truthy (v : nullable bool) : bool :=
  match v with Val b => b | _ => false end.

(** A JavaScript number: NaN, an infinity or a finite value.  A finite
    double is a rational; both zeros are a [JsFinite] of value 0. *)
Inductive JsNumber : Type :=
| JsNaN
| JsInfinity (negative : bool)
| JsFinite (q : Q).

(** [n != 0] on a number. *)
Definition numberDiffersFromZero (n : JsNumber) : bool :=
  match n with
  | JsFinite q => negb (Qeq_bool q 0)
  | _ => true
  end.

(** ** JavaScript strings: [includes], [split], [replace] *)

Module JsString.

Local Open Scope string_scope.

Fixpoint drop (n : nat) (s : string) : string :=
  match n, s with
  | O, _ => s
  | S _, EmptyString => EmptyString
  | S n', String _ s' => drop n' s'
  end.

(** [s.includes(sub)] *)
Fixpoint includes (s sub : string) : bool :=
  match s with
  | EmptyString => prefix sub s
  | String _ s' => prefix sub s || includes s' sub
  end.

(** [s.split(sep)] for a non-empty separator: [cur] is the piece read
    so far, [skip] the number of characters of a separator just found
    that are still to be passed over. *)
Fixpoint split_go (sep : string) (skip : nat) (cur s : string)
  : list string :=
  match s with
  | EmptyString => [cur]
  | String c s' =>
      match skip with
      | S k => split_go sep k cur s'
      | O =>
          if prefix sep s
          then cur :: split_go sep (String.length sep - 1) "" s'
          else split_go sep 0 (cur ++ String c "") s'
      end
  end.

Definition split (s sep : string) : list string := split_go sep 0 "" s.

(** [s.replace(pat, rep)] with a string pattern: the first occurrence
    only. *)
Fixpoint replace (s pat rep : string) : string :=
  match s with
  | EmptyString => if prefix pat s then rep else s
  | String c s' =>
      if prefix pat s
      then rep ++ drop (String.length pat) s
      else String c (replace s' pat rep)
  end.

(** Every character of [s] satisfies [p]. *)
Fixpoint all (p : ascii -> bool) (s : string) : bool :=
  match s with
  | EmptyString => true
  | String c s' => p c && all p s'
  end.

(** The character [c] does not occur in [s]. *)
Definition lacks (c : ascii) (s : string) : bool :=
  all (fun x => negb (Ascii.eqb x c)) s.

Definition isDigit (c : ascii) : bool :=
  (48 <=? nat_of_ascii c)%nat && (nat_of_ascii c <=? 57)%nat.

(** A character of a decimal integer: a digit or the minus sign. *)
Definition isNumeric (c : ascii) : bool := isDigit c || Ascii.eqb c "-".

End JsString.

(** ** long.js

    A [Long] is represented by its signed 64-bit value; unsigned Longs
    are not represented (the class under study creates signed ones
    only).  [toString] is the decimal text. *)

Module Long.

Local Open Scope Z_scope.

Definition t : Type := Z.

Definition MAX_VALUE : t := 2 ^ 63 - 1.
Definition MIN_VALUE : t := - 2 ^ 63.

(** [Long.fromNumber(value)] (long.js 4): NaN gives zero, a value out
    of range is clamped, and any other value loses its fraction: the
    two halves are taken with [| 0] from the absolute value and the
    sign is put back, which truncates towards zero. *)
Definition fromNumber (value : JsNumber) : t :=
  match value with
  | JsNaN => 0
  | JsInfinity negative => if negative then MIN_VALUE else MAX_VALUE
  | JsFinite q =>
      if Qle_bool q (inject_Z (- 2 ^ 63)) then MIN_VALUE
      else if Qle_bool (inject_Z (2 ^ 63)) (q + 1) then MAX_VALUE
      else Z.quot (Qnum q) (Zpos (Qden q))
  end.

(** [toInt()]: the low 32 bits, as a signed 32-bit integer. *)
Definition toInt (l : t) : Z := (l + 2 ^ 31) mod 2 ^ 32 - 2 ^ 31.

Definition toString (l : t) : string :=
  NilZero.string_of_int (Z.to_int l).

(** [compare]: -1, 0 or 1. *)
Definition compare (a b : t) : Z :=
  match a ?= b with
  | Lt => -1
  | Eq => 0
  | Gt => 1
  end.

End Long.

(** ** Timestamp *)

Module Timestamp.

(** Modelled from the spec: the Timestamp class is not part of the
    sources at hand; the spec gives a timestamp as integer seconds plus
    integer nanoseconds. *)
Record t : Type := new {
  seconds : Long.t;
  nanos : Long.t
}.

(** Modelled from the spec: Timestamp's comparator is not part of the
    sources at hand; the spec orders timestamps by seconds, then by
    nanoseconds. *)
Definition compare (this other : t) : Z :=
  let comparison := Long.compare (seconds this) (seconds other) in
  if negb (comparison =? 0)%Z then comparison
  else Long.compare (nanos this) (nanos other).

End Timestamp.

(** ** Collaborators of the transaction identifier

    The account-reference type is used through its text form, its
    comparator and its protobuf form only; the protobuf form of a
    timestamp is likewise used as it comes. *)

Class AccountIdApi (AccountId : Type) : Type := {
  AccountId_toString : AccountId -> string;
  AccountId_compare : AccountId -> AccountId -> Z
}.

Class Protobuf (A P : Type) : Type := {
  _toProtobuf : A -> P
}.

(** ** The transaction identifier

    The class that [src/src/ExchangeRate.ts] declares under the name
    [ForeignTransactionData]; its documentation and the return types of
    its methods call it [TransactionId], the name this module keeps.
    The code is taken as it stands:

    - the constructor stores its first three arguments in the
      properties [foreignTransactionBytes], [payloadStart] and
      [payloadLength] and its fourth in [nonce], then freezes the
      object.  JavaScript does not check the types its documentation
      gives for them: the three properties hold whatever is passed;
    - the methods read [this.accountId], [this.validStart] and
      [this.scheduled].  No statement of the class assigns the first
      two, and the only assignment to the third is the one in
      [setScheduled]; reading a property an object does not have gives
      [undefined];
    - [withValidStart], [fromString], [_fromProtobuf] and [clone]
      return [new TransactionId(...)].  The file has no binding of that
      name (the class is [ForeignTransactionData]; the imports are
      [AccountId], [Timestamp], [proto] and [Long]), and a [new]
      expression looks its constructor up before it evaluates any
      argument: the lookup throws a ReferenceError.

    [generate] and [fromBytes] start with the same lookup; [toBytes]
    goes through the generated protobuf codec.  The three are left
    out. *)

Module TransactionId.

Section WithCollaborators.

Context {AccountId ProtoAccountID ProtoTimestamp : Type}.
Context {accountApi : AccountIdApi AccountId}.
Context {accountProto : Protobuf AccountId ProtoAccountID}.
Context {timestampProto : Protobuf Timestamp.t ProtoTimestamp}.

(** What the constructor is given as its first three arguments. *)
Context {Bytes Start Length : Type}.

Local Open Scope string_scope.
Local Open Scope result_scope.

(** The own properties of an instance: the four the constructor
    assigns and [scheduled], which [setScheduled] assigns.  [frozen]
    records [Object.freeze(this)]. *)
Record t : Type := mk {
  foreignTransactionBytes : Bytes;
  payloadStart : Start;
  payloadLength : Length;
  nonce : option Long.t;
  scheduled : nullable bool;
  frozen : bool
}.

(** [this.accountId] and [this.validStart]: properties that no
    instance has. *)
Definition accountId (this : t) : option AccountId := None.

Definition validStart (this : t) : option Timestamp.t := None.

(** A nonce argument, of type [Long | number]. *)
Inductive NonceArg : Type :=
| ALong (l : Long.t)
| ANumber (n : JsNumber).

(** Assignment to a property of a frozen object throws a TypeError in
    strict code, which the body of a class is. *)
Definition readOnly (property : string) : JsError :=
  TypeError ("Cannot assign to read only property " ++ property).

Definition setNonce (this : t) (nonce : NonceArg) : result JsError t :=
  if frozen this then Throw (readOnly "nonce")
  else
    Ok (mk (foreignTransactionBytes this) (payloadStart this)
           (payloadLength this)
           (Some (match nonce with
                  | ANumber n => Long.fromNumber n
                  | ALong l => l
                  end))
           (scheduled this) (frozen this)).

Definition setScheduled (this : t) (scheduled : nullable bool)
  : result JsError t :=
  if frozen this then Throw (readOnly "scheduled")
  else
    Ok (mk (foreignTransactionBytes this) (payloadStart this)
           (payloadLength this) (nonce this) scheduled (frozen this)).

(** [nonce != 0]: a number is compared as it is, a Long through its
    decimal text. *)
Definition differsFromZero (nonce : NonceArg) : bool :=
  match nonce with
  | ANumber n => numberDiffersFromZero n
  | ALong l => negb (l =? 0)%Z
  end.

Definition freeze (this : t) : t :=
  mk (foreignTransactionBytes this) (payloadStart this)
     (payloadLength this) (nonce this) (scheduled this) true.

(** [new ForeignTransactionData(foreignTransactionBytes, payloadStart,
    payloadLength, nonce = null)] *)
Definition new (foreignTransactionBytes : Bytes) (payloadStart : Start)
    (payloadLength : Length) (nonce : nullable NonceArg)
  : result JsError t :=
  let this :=
    mk foreignTransactionBytes payloadStart payloadLength None
       Undefined false in
  this <- match nonce with
          | Val n => if differsFromZero n then setNonce this n
                     else Ok this
          | _ => Ok this
          end ;;
  Ok (freeze this).

(** The lookup of the name [TransactionId]. *)
Definition notDefined : JsError :=
  ReferenceError "TransactionId is not defined".

Definition withValidStart (accountId : AccountId)
    (validStart : Timestamp.t) : result JsError t :=
  Throw notDefined.

Definition clone (this : t) : result JsError t := Throw notDefined.

Definition undefinedRest : JsError :=
  TypeError "Cannot read properties of undefined".

(** The text is split first; the [new] expression comes last and
    throws before [AccountId.fromString] and the conversions to [Long]
    in its argument list are evaluated. *)
Definition fromString (wholeId : string) : result JsError t :=
  match JsString.split wholeId "@" with
  | account :: rest :: _ =>
      match JsString.split rest "." with
      | seconds :: rest :: _ =>
          (if JsString.includes rest "?"
           then
             match JsString.split rest "?scheduled" with
             | nanos :: rest :: _ =>
                 if JsString.includes rest "/"
                 then Ok (nanos, Val true,
                          Val (JsString.replace rest "/" ""))
                 else Ok (nanos, Val true, Null)
             | _ => Throw undefinedRest
             end
           else if JsString.includes rest "/"
           then
             match JsString.split rest "/" with
             | nanos :: nonce :: _ => Ok (nanos, Val false, Val nonce)
             | nanos :: nil => Ok (nanos, Val false, Undefined)
             | nil => Throw undefinedRest
             end
           else Ok (rest, Undefined, Undefined)) ;;;
          Throw notDefined
      | _ => Throw undefinedRest
      end
  | _ => Throw undefinedRest
  end.

Definition toString (this : t) : result JsError string :=
  match accountId this, validStart this with
  | Some accountId, Some validStart =>
      let nonce :=
        match nonce this with
        | Some nonce => "/" ++ Long.toString nonce
        | None => ""
        end in
      let scheduled :=
        if truthy (scheduled this) then "?scheduled" else "" in
      Ok (AccountId_toString accountId ++ "@"
          ++ Long.toString (Timestamp.seconds validStart) ++ "."
          ++ Long.toString (Timestamp.nanos validStart)
          ++ scheduled ++ nonce)
  | _, _ => Throw (Error "neither `accountId` nor `validStart` are set")
  end.

(** [proto.ITransactionID] *)
Record ITransactionID : Type := mkProto {
  accountID : option ProtoAccountID;
  transactionValidStart : option ProtoTimestamp;
  proto_scheduled : nullable bool;
  proto_nonce : nullable Z
}.

Definition _fromProtobuf (id : ITransactionID) : result JsError t :=
  match accountID id, transactionValidStart id with
  | Some accountID, Some transactionValidStart => Throw notDefined
  | _, _ =>
      Throw (Error
        "Neither `nonce` or `accountID` and `transactionValidStart` are set")
  end.

Definition _toProtobuf (this : t) : ITransactionID :=
  mkProto
    (match accountId this with
     | Some accountId => Some (_toProtobuf accountId)
     | None => None
     end)
    (match validStart this with
     | Some validStart => Some (_toProtobuf validStart)
     | None => None
     end)
    (scheduled this)
    (match nonce this with
     | Some nonce => Val (Long.toInt nonce)
     | None => Null
     end).

(** [this.accountId.compare(...)]: a property of [undefined] is read
    when [this.accountId] is. *)
Definition compare (this other : t) : result JsError Z :=
  match accountId this with
  | Some thisAccount =>
      match accountId other with
      | Some otherAccount =>
          let comparison := AccountId_compare thisAccount otherAccount in
          if negb (comparison =? 0)%Z then Ok comparison
          else
            match validStart this, validStart other with
            | Some thisStart, Some otherStart =>
                Ok (Timestamp.compare thisStart otherStart)
            | _, _ => Throw undefinedRest
            end
      | None => Throw undefinedRest
      end
  | None => Throw undefinedRest
  end.

(** The identifiers the class hands out: the results of the constructor
    and of the methods written to return a new identifier. *)
Inductive Produced : t -> Prop :=
| by_new foreignTransactionBytes payloadStart payloadLength nonce id :
    new foreignTransactionBytes payloadStart payloadLength nonce = Ok id ->
    Produced id
| by_withValidStart accountId validStart id :
    withValidStart accountId validStart = Ok id -> Produced id
| by_clone this id : clone this = Ok id -> Produced id
| by_fromString wholeId id : fromString wholeId = Ok id -> Produced id
| by_fromProtobuf proto id : _fromProtobuf proto = Ok id -> Produced id.

End WithCollaborators.

Arguments t Bytes Start Length : clear implicits.
Arguments ITransactionID ProtoAccountID ProtoTimestamp : clear implicits.

End TransactionId.

(** ** An account reference of the form shard.realm.num

    Modelled from the spec: the account-reference type is an external
    collaborator, known by its contract (text form, comparator, binary
    form).  This instance has the text form of the spec's examples,
    [0.0.1001]; it serves to run the identifier's code on concrete
    values. *)

Module EntityId.

Local Open Scope string_scope.

Record t : Type := mk {
  shard : Long.t;
  realm : Long.t;
  num : Long.t
}.

Definition toString (this : t) : string :=
  Long.toString (shard this) ++ "." ++ Long.toString (realm this) ++ "."
  ++ Long.toString (num this).

Definition compare (this other : t) : Z :=
  let comparison := Long.compare (shard this) (shard other) in
  if negb (comparison =? 0)%Z then comparison
  else
    let comparison := Long.compare (realm this) (realm other) in
    if negb (comparison =? 0)%Z then comparison
    else Long.compare (num this) (num other).

#[global] Instance api : AccountIdApi t := {|
  AccountId_toString := toString;
  AccountId_compare := compare
|}.

#[global] Instance proto : Protobuf t t := {|
  _toProtobuf := fun a => a
|}.

#[global] Instance timestampProto : Protobuf Timestamp.t Timestamp.t := {|
  _toProtobuf := fun a => a
|}.

End EntityId.

(** ** The identifier of the spec's examples *)

Module Sample.

Local Open Scope Z_scope.

Definition owner : EntityId.t := EntityId.mk 0 0 1001.

Definition validStart : Timestamp.t :=
  Timestamp.new 1614385200 123456789.

(** The object the constructor returns when it is given [owner],
    [validStart], [scheduled] and a nonce that it stores as [nonce]. *)
Definition identifier (scheduled : nullable bool) (nonce : option Long.t)
  : TransactionId.t EntityId.t Timestamp.t (nullable bool) :=
  TransactionId.mk owner validStart scheduled nonce Undefined true.

(** An integral number. *)
Definition number (n : Z) : TransactionId.NonceArg :=
  TransactionId.ANumber (JsFinite (inject_Z n)).

End Sample.

(** ** ExchangeRate *)

Module ExchangeRate.

Local Open Scope result_scope.

(** The generated protobuf messages, through the getters the mappers
    call; a getter of a message field gives [undefined] when the field
    is not set. *)
Record ProtoTimestampSeconds : Type := {
  getSeconds : Z
}.

Record ProtoExchangeRate : Type := {
  getHbarequiv : Z;
  getCentequiv : Z;
  getExpirationtime : option ProtoTimestampSeconds
}.

Record ProtoExchangeRateSet : Type := mkProtoSet {
  getCurrentrate : option ProtoExchangeRate;
  getNextrate : option ProtoExchangeRate
}.

(** [new Date(value)] *)
Record Date : Type := { getTime : Z }.

Record ExchangeRate : Type := {
  hbarEquiv : Z;
  centEquiv : Z;
  expirationTime : Date
}.

Record ExchangeRateSet : Type := {
  currentRate : ExchangeRate;
  nextRate : ExchangeRate
}.

(** [x!.m()] on an [undefined] receiver. *)
Definition receiver {A} (x : option A) : result JsError A :=
  match x with
  | Some a => Ok a
  | None => Throw (TypeError "Cannot read properties of undefined")
  end.

Definition exchangeRateToSdk (exchangeRate : option ProtoExchangeRate)
  : result JsError ExchangeRate :=
  rate <- receiver exchangeRate ;;
  time <- receiver (getExpirationtime rate) ;;
  Ok {| hbarEquiv := getHbarequiv rate;
        centEquiv := getCentequiv rate;
        expirationTime := {| getTime := getSeconds time |} |}.

Definition exchangeRateSetToSdk (exchangeRateSet : ProtoExchangeRateSet)
  : result JsError ExchangeRateSet :=
  current <- exchangeRateToSdk (getCurrentrate exchangeRateSet) ;;
  next <- exchangeRateToSdk (getCurrentrate exchangeRateSet) ;;
  Ok {| currentRate := current; nextRate := next |}.

End ExchangeRate.

(** ** ContractCreateTransaction

    The builder, as far as its own code goes: the body it fills and the
    validation it adds.  The generated message
    [ContractCreateTransactionBody] is represented by what its setters
    were last given, a field being [None] until it is first set.  The
    conversions the setters call on their arguments belong to other
    classes and are parameters.  [setInitialBalance], whose helpers are
    not those of the Hbar class above, and the transport ([_method],
    [_inner]) are left out. *)

Module ContractCreateTransaction.

Section WithCollaborators.

Context {FileIdLike ProtoFileID PublicKey ProtoKey : Type}.
Context {AccountIdLike ProtoAccountID Duration : Type}.
Context {ContractFunctionParams Bytes Gas : Type}.

(** [new FileId(fileIdLike)._toProto()] *)
Variable FileId_toProto : FileIdLike -> ProtoFileID.
(** [publicKey._toProtoKey()] *)
Variable _toProtoKey : PublicKey -> ProtoKey.
(** [new AccountId(proxyAccountId)._toProto()] *)
Variable AccountId_toProto : AccountIdLike -> ProtoAccountID.
(** [newDuration(seconds)] *)
Variable newDuration : Z -> Duration.
(** [constructorParams._build(null)] *)
Variable _build : ContractFunctionParams -> Bytes.
(** [String(gas)] *)
Variable String_ : Gas -> string.

Record ContractCreateTransactionBody : Type := mkBody {
  fileid : option ProtoFileID;
  adminkey : option ProtoKey;
  gas : option string;
  proxyaccountid : option ProtoAccountID;
  autorenewperiod : option Duration;
  constructorparameters : option Bytes;
  memo : option string
}.

Definition hasFileid (body : ContractCreateTransactionBody) : bool :=
  match fileid body with Some _ => true | None => false end.

Record t : Type := mk {
  _body : ContractCreateTransactionBody
}.

Definition setBytecodeFileId (this : t) (fileIdLike : FileIdLike) : t :=
  let b := _body this in
  mk (mkBody (Some (FileId_toProto fileIdLike)) (adminkey b) (gas b)
             (proxyaccountid b) (autorenewperiod b)
             (constructorparameters b) (memo b)).

Definition setAdminKey (this : t) (publicKey : PublicKey) : t :=
  let b := _body this in
  mk (mkBody (fileid b) (Some (_toProtoKey publicKey)) (gas b)
             (proxyaccountid b) (autorenewperiod b)
             (constructorparameters b) (memo b)).

Definition setGas (this : t) (gas' : Gas) : t :=
  let b := _body this in
  mk (mkBody (fileid b) (adminkey b) (Some (String_ gas'))
             (proxyaccountid b) (autorenewperiod b)
             (constructorparameters b) (memo b)).

Definition setProxyAccountId (this : t) (proxyAccountId : AccountIdLike)
  : t :=
  let b := _body this in
  mk (mkBody (fileid b) (adminkey b) (gas b)
             (Some (AccountId_toProto proxyAccountId)) (autorenewperiod b)
             (constructorparameters b) (memo b)).

Definition setAutoRenewPeriod (this : t) (seconds : Z) : t :=
  let b := _body this in
  mk (mkBody (fileid b) (adminkey b) (gas b)
             (proxyaccountid b) (Some (newDuration seconds))
             (constructorparameters b) (memo b)).

Definition setConstructorParams (this : t)
    (constructorParams : ContractFunctionParams) : t :=
  let b := _body this in
  mk (mkBody (fileid b) (adminkey b) (gas b)
             (proxyaccountid b) (autorenewperiod b)
             (Some (_build constructorParams)) (memo b)).

Definition setContractMemo (this : t) (memo' : string) : t :=
  let b := _body this in
  mk (mkBody (fileid b) (adminkey b) (gas b)
             (proxyaccountid b) (autorenewperiod b)
             (constructorparameters b) (Some memo')).

(** [new ContractCreateTransaction()]: an empty body, then the default
    auto-renew period. *)
Definition new : t :=
  setAutoRenewPeriod (mk (mkBody None None None None None None None))
                     (131500 * 60)%Z.

(** [_doValidate(errors)]: [errors.push] adds at the end. *)
Definition _doValidate (this : t) (errors : list string) : list string :=
  if negb (hasFileid (_body this))
  then errors ++ [".setBytecodeFile() required"%string]
  else errors.

(** A call of one of the setters, and a chain of such calls on a
    builder. *)
Inductive Call : Type :=
| SetBytecodeFileId (fileIdLike : FileIdLike)
| SetAdminKey (publicKey : PublicKey)
| SetGas (gas : Gas)
| SetProxyAccountId (proxyAccountId : AccountIdLike)
| SetAutoRenewPeriod (seconds : Z)
| SetConstructorParams (constructorParams : ContractFunctionParams)
| SetContractMemo (memo : string).

Definition call (this : t) (c : Call) : t :=
  match c with
  | SetBytecodeFileId fileIdLike => setBytecodeFileId this fileIdLike
  | SetAdminKey publicKey => setAdminKey this publicKey
  | SetGas gas => setGas this gas
  | SetProxyAccountId proxyAccountId => setProxyAccountId this proxyAccountId
  | SetAutoRenewPeriod seconds => setAutoRenewPeriod this seconds
  | SetConstructorParams constructorParams =>
      setConstructorParams this constructorParams
  | SetContractMemo memo => setContractMemo this memo
  end.

Definition chain (this : t) (calls : list Call) : t :=
  fold_left call calls this.

Definition isSetBytecodeFileId (c : Call) : bool :=
  match c with SetBytecodeFileId _ => true | _ => false end.

(** The seconds of the last [setAutoRenewPeriod] of a chain, [seconds]
    when there is none. *)
Definition lastAutoRenewPeriod (seconds : Z) (calls : list Call) : Z :=
  fold_left (fun s c => match c with
                        | SetAutoRenewPeriod s' => s'
                        | _ => s
                        end) calls seconds.

End WithCollaborators.

End ContractCreateTransaction.

(** * Properties *)

(** ** Facts about the BigNumber model *)

Section BigNumberFacts.

Import BigNumber.

Lemma Qred_inject_Z (z : Z) : Qred (inject_Z z) = inject_Z z.
Proof.
  apply Qcanon.Qred_identity. simpl. apply Z.gcd_1_r.
Qed.

Lemma Qred_integer (q : Q) (z : Z) : q == inject_Z z -> Qred q = inject_Z z.
Proof.
  intros H. rewrite <- (Qred_inject_Z z). now apply Qred_complete.
Qed.

Lemma round_half_up_integer (q : Q) (z : Z) :
  q == inject_Z z -> round_half_up q = z.
Proof.
  destruct q as [n d]. unfold Qeq, round_half_up. cbn [Qnum Qden inject_Z].
  intros H. rewrite Z.mul_1_r in H. subst n.
  set (D := Zpos d). assert (Hd : (0 < D)%Z) by (subst D; lia).
  rewrite Z.abs_mul, (Z.abs_eq D) by lia.
  replace (2 * (Z.abs z * D) + D)%Z
    with (Z.abs z * (2 * D) + D)%Z by ring.
  rewrite Z.div_add_l by lia.
  rewrite Z.div_small by lia.
  rewrite Z.add_0_r.
  rewrite Z.sgn_mul, (Z.sgn_pos D) by lia.
  rewrite Z.mul_1_r, Z.mul_comm. apply Z.abs_sgn.
Qed.

(** A quotient with at most [DECIMAL_PLACES] decimal places is not
    rounded. *)
Lemma round_dp_exact (q : Q) (z : Z) :
  q * inject_Z (10 ^ DECIMAL_PLACES) == inject_Z z -> round_dp q = Qred q.
Proof.
  intros H. unfold round_dp.
  rewrite (round_half_up_integer _ _ H).
  apply Qred_complete. rewrite <- H.
  field. discriminate.
Qed.

Lemma round_dp_integer (q : Q) (z : Z) :
  q == inject_Z z -> round_dp q = inject_Z z.
Proof.
  intros H.
  rewrite (round_dp_exact q (z * 10 ^ DECIMAL_PLACES)).
  - now apply Qred_integer.
  - rewrite H, inject_Z_mult. reflexivity.
Qed.

End BigNumberFacts.

(** ** Facts about Hbar *)

Section HbarFacts.

Import BigNumber.
Local Open Scope Z_scope.

Lemma _toTinybarCount_factor (u : HbarUnit.t) :
  HbarUnit._toTinybarCount u = ofZ (HbarUnit.factor u).
Proof. destruct u; vm_compute; reflexivity. Qed.

Lemma factor_pos (u : HbarUnit.t) : 0 < HbarUnit.factor u.
Proof. destruct u; vm_compute; reflexivity. Qed.

Lemma factor_divides (u : HbarUnit.t) :
  exists c, 10 ^ DECIMAL_PLACES = c * HbarUnit.factor u.
Proof.
  destruct u;
    [ exists (10 ^ 20) | exists (10 ^ 18) | exists (10 ^ 15)
    | exists (10 ^ 12) | exists (10 ^ 9) | exists (10 ^ 6)
    | exists (10 ^ 3) ]; vm_compute; reflexivity.
Qed.

Lemma maxTinybar_val : Hbar.maxTinybar = ofZ (2 ^ 63 - 1).
Proof. vm_compute. reflexivity. Qed.

Lemma minTinybar_val : Hbar.minTinybar = ofZ (- 2 ^ 63).
Proof. vm_compute. reflexivity. Qed.

Lemma multipliedBy_Fin (p q : Q) :
  multipliedBy (Fin p) (Fin q) = Fin (Qred (p * q)).
Proof. reflexivity. Qed.

Lemma qzero_inject_Z (z : Z) : qzero (inject_Z z) = (z =? 0).
Proof. reflexivity. Qed.

Lemma isGreaterThan_ofZ (a b : Z) :
  isGreaterThan (ofZ a) (ofZ b) = (b <? a).
Proof.
  unfold isGreaterThan, ofZ, comparedTo, Qcompare. cbn [Qnum Qden inject_Z].
  rewrite !Z.mul_1_r, Z.ltb_antisym, Z.leb_compare.
  destruct (a ?= b); reflexivity.
Qed.

(** The constructor: the stored value is the amount times 10^8, and
    the only test it makes is the upper bound. *)
Lemma new_unfold (amount : Hbar.Value) :
  Hbar.new amount =
  let this := Hbar.mk (multipliedBy (Hbar.toBigNumber amount)
                    (ofZ (HbarUnit.factor HbarUnit.Hbar))) HbarUnit.Hbar in
  if isGreaterThan (Hbar._tinybar this) Hbar.maxTinybar
  then Throw (Hbar.RangeError this) else Ok this.
Proof.
  unfold Hbar.new, Hbar._check, bind. cbn [negb Hbar._tinybar].
  rewrite andb_false_r. cbn [andb].
  rewrite (_toTinybarCount_factor HbarUnit.Hbar). cbv zeta.
  destruct (isGreaterThan _ Hbar.maxTinybar); reflexivity.
Qed.

Lemma new_integer (amount : Hbar.Value) (q : Q) (z : Z) :
  Hbar.toBigNumber amount = Fin q ->
  (q * inject_Z (10 ^ 8) == inject_Z z)%Q ->
  Hbar.new amount =
  if 2 ^ 63 - 1 <? z
  then Throw (Hbar.RangeError (Hbar.mk (ofZ z) HbarUnit.Hbar))
  else Ok (Hbar.mk (ofZ z) HbarUnit.Hbar).
Proof.
  intros Hq Hz. rewrite new_unfold, Hq. cbv zeta.
  change (ofZ (HbarUnit.factor HbarUnit.Hbar)) with (Fin (inject_Z (10 ^ 8))).
  rewrite multipliedBy_Fin, (Qred_integer _ _ Hz). cbn [Hbar._tinybar].
  fold (ofZ z).
  rewrite maxTinybar_val, isGreaterThan_ofZ. reflexivity.
Qed.

(** Division by a unit's factor is exact on every value with at most
    [DECIMAL_PLACES] decimal places left after it. *)
Lemma dividedBy_exact (q : Q) (f z : Z) :
  0 < f ->
  (q / inject_Z f * inject_Z (10 ^ DECIMAL_PLACES) == inject_Z z)%Q ->
  dividedBy (Fin q) (ofZ f) = Fin (Qred (q / inject_Z f)).
Proof.
  intros Hf Hz. unfold dividedBy, ofZ.
  rewrite qzero_inject_Z.
  destruct (Z.eqb_spec f 0) as [E|_]; [lia|].
  now rewrite (round_dp_exact _ _ Hz).
Qed.

Lemma inject_Z_nonzero (f : Z) : 0 < f -> ~ (inject_Z f == 0)%Q.
Proof.
  intros Hf H. unfold Qeq in H. cbn in H. lia.
Qed.

Lemma dividedBy_factor (q : Q) (z : Z) (u : HbarUnit.t) :
  (q == inject_Z z)%Q ->
  dividedBy (Fin q) (ofZ (HbarUnit.factor u)) =
  Fin (Qred (q / inject_Z (HbarUnit.factor u))).
Proof.
  intros Hq.
  destruct (factor_divides u) as [c Hc].
  pose proof (factor_pos u) as Hf.
  apply (dividedBy_exact _ _ (z * c) Hf).
  rewrite Hc, Hq, !inject_Z_mult. field.
  now apply inject_Z_nonzero.
Qed.

(** [new Hbar(t.dividedBy(10^8))] stores the integer [t] back. *)
Lemma new_dividedBy_Hbar (q : Q) (z : Z) :
  (q == inject_Z z)%Q ->
  Hbar.new (Hbar.Big (dividedBy (Fin q)
                        (HbarUnit._toTinybarCount HbarUnit.Hbar))) =
  if 2 ^ 63 - 1 <? z
  then Throw (Hbar.RangeError (Hbar.mk (ofZ z) HbarUnit.Hbar))
  else Ok (Hbar.mk (ofZ z) HbarUnit.Hbar).
Proof.
  intros Hq.
  rewrite _toTinybarCount_factor, (dividedBy_factor _ _ _ Hq).
  eapply new_integer; [reflexivity|].
  rewrite Qred_correct, Hq.
  change (HbarUnit.factor HbarUnit.Hbar) with (10 ^ 8).
  field. now apply inject_Z_nonzero.
Qed.

Lemma fromTinybar_integer (amount : Hbar.Value) (q : Q) (z : Z) :
  Hbar.toBigNumber amount = Fin q ->
  (q == inject_Z z)%Q ->
  Hbar.imprecise amount = false ->
  Hbar.fromTinybar amount =
  if 2 ^ 63 - 1 <? z
  then Throw (Hbar.RangeError (Hbar.mk (ofZ z) HbarUnit.Hbar))
  else Ok (Hbar.mk (ofZ z) HbarUnit.Hbar).
Proof.
  intros Hv Hz Hi. unfold Hbar.fromTinybar. rewrite Hi, Hv.
  now apply new_dividedBy_Hbar.
Qed.

Lemma from_integer (amount : Hbar.Value) (unit : HbarUnit.t) (q : Q) (z : Z) :
  Hbar.toBigNumber amount = Fin q ->
  (q * inject_Z (HbarUnit.factor unit) == inject_Z z)%Q ->
  Hbar.from amount unit =
  if 2 ^ 63 - 1 <? z
  then Throw (Hbar.RangeError (Hbar.mk (ofZ z) HbarUnit.Hbar))
  else Ok (Hbar.mk (ofZ z) HbarUnit.Hbar).
Proof.
  intros Hq Hz. unfold Hbar.from. rewrite Hq, (_toTinybarCount_factor unit).
  unfold ofZ at 1.
  rewrite multipliedBy_Fin, (Qred_integer _ _ Hz).
  now apply new_dividedBy_Hbar.
Qed.

Lemma as_integer (this : Hbar.t) (z : Z) (unit : HbarUnit.t) :
  Hbar._tinybar this = ofZ z ->
  Hbar.as_ this unit = Fin (Qred (inject_Z z / inject_Z (HbarUnit.factor unit))).
Proof.
  intros Hz. unfold Hbar.as_. rewrite Hz.
  destruct (String.eqb (HbarUnit.toString unit) "tinybar") eqn:E.
  - destruct unit; try discriminate E.
    unfold ofZ. f_equal. symmetry. apply Qred_integer.
    change (HbarUnit.factor HbarUnit.Tinybar) with 1. field.
  - rewrite _toTinybarCount_factor.
    now apply (dividedBy_factor (inject_Z z) z).
Qed.

Lemma plus_ofZ (a b : Z) : plus (ofZ a) (ofZ b) = ofZ (a + b).
Proof.
  unfold plus, ofZ. f_equal. apply Qred_integer.
  now rewrite inject_Z_plus.
Qed.

Lemma minus_ofZ (a b : Z) : minus (ofZ a) (ofZ b) = ofZ (a - b).
Proof.
  unfold minus, ofZ. f_equal. apply Qred_integer.
  unfold Z.sub, Qminus. now rewrite inject_Z_plus, inject_Z_opp.
Qed.

Lemma negated_ofZ (a : Z) : negated (ofZ a) = ofZ (- a).
Proof.
  unfold negated, ofZ. f_equal. apply Qred_integer.
  now rewrite inject_Z_opp.
Qed.

Lemma multipliedBy_ofZ (a b : Z) : multipliedBy (ofZ a) (ofZ b) = ofZ (a * b).
Proof.
  unfold ofZ. rewrite multipliedBy_Fin. f_equal. apply Qred_integer.
  now rewrite inject_Z_mult.
Qed.

(** [plus], [minus] and [negated] divide by 10^8 before they call the
    constructor, so the constructor's multiplication restores the
    tinybar value they computed. *)
Lemma plus_integer (this : Hbar.t) (o : Hbar.Operand) (a b : Z) :
  Hbar._tinybar this = ofZ a ->
  Hbar.operandTinybar o = ofZ b ->
  Hbar.plus this o =
  if 2 ^ 63 - 1 <? a + b
  then Throw (Hbar.RangeError (Hbar.mk (ofZ (a + b)) HbarUnit.Hbar))
  else Ok (Hbar.mk (ofZ (a + b)) HbarUnit.Hbar).
Proof.
  intros Ha Hb. unfold Hbar.plus. rewrite Ha, Hb, plus_ofZ.
  now apply new_dividedBy_Hbar.
Qed.

Lemma minus_integer (this : Hbar.t) (o : Hbar.Operand) (a b : Z) :
  Hbar._tinybar this = ofZ a ->
  Hbar.operandTinybar o = ofZ b ->
  Hbar.minus this o =
  if 2 ^ 63 - 1 <? a - b
  then Throw (Hbar.RangeError (Hbar.mk (ofZ (a - b)) HbarUnit.Hbar))
  else Ok (Hbar.mk (ofZ (a - b)) HbarUnit.Hbar).
Proof.
  intros Ha Hb. unfold Hbar.minus. rewrite Ha, Hb, minus_ofZ.
  now apply new_dividedBy_Hbar.
Qed.

Lemma negated_integer (this : Hbar.t) (a : Z) :
  Hbar._tinybar this = ofZ a ->
  Hbar.negated this =
  if 2 ^ 63 - 1 <? - a
  then Throw (Hbar.RangeError (Hbar.mk (ofZ (- a)) HbarUnit.Hbar))
  else Ok (Hbar.mk (ofZ (- a)) HbarUnit.Hbar).
Proof.
  intros Ha. unfold Hbar.negated. rewrite Ha, negated_ofZ.
  now apply new_dividedBy_Hbar.
Qed.

(** [multipliedBy] hands the product, a tinybar value, to the
    constructor as it is, and the constructor reads it as hbars. *)
Lemma multipliedBy_integer (this : Hbar.t) (amount : Hbar.Value) (a k : Z) :
  Hbar._tinybar this = ofZ a ->
  Hbar.toBigNumber amount = ofZ k ->
  Hbar.multipliedBy this amount =
  if 2 ^ 63 - 1 <? a * k * 10 ^ 8
  then Throw (Hbar.RangeError (Hbar.mk (ofZ (a * k * 10 ^ 8)) HbarUnit.Hbar))
  else Ok (Hbar.mk (ofZ (a * k * 10 ^ 8)) HbarUnit.Hbar).
Proof.
  intros Ha Hk. unfold Hbar.multipliedBy. rewrite Ha, Hk, multipliedBy_ofZ.
  eapply new_integer; [reflexivity|].
  now rewrite <- inject_Z_mult.
Qed.

Lemma fromTinybar_Big_ofZ (z : Z) :
  Hbar.fromTinybar (Hbar.Big (ofZ z)) =
  if 2 ^ 63 - 1 <? z
  then Throw (Hbar.RangeError (Hbar.mk (ofZ z) HbarUnit.Hbar))
  else Ok (Hbar.mk (ofZ z) HbarUnit.Hbar).
Proof. apply (fromTinybar_integer _ (inject_Z z) z); reflexivity. Qed.

End HbarFacts.

(** ** The amount type: claims *)

Section HbarClaims.

Import BigNumber.
Local Open Scope Z_scope.

(** C1: [fromTinybar] at the ends of the signed 64-bit range:
    2^63 is refused with a range error, 2^63 - 1 and -2^63 are
    accepted; -2^63 - 1 is accepted as well, [_check] having no test
    against [minTinybar]. *)
Theorem fromTinybar_int64_ends :
  Hbar.fromTinybar (Hbar.Big (ofZ (2 ^ 63))) =
    Throw (Hbar.RangeError (Hbar.mk (ofZ (2 ^ 63)) HbarUnit.Hbar))
  /\ Hbar.fromTinybar (Hbar.Big (ofZ (2 ^ 63 - 1))) =
    Ok (Hbar.mk (ofZ (2 ^ 63 - 1)) HbarUnit.Hbar)
  /\ Hbar.fromTinybar (Hbar.Big (ofZ (- 2 ^ 63))) =
    Ok (Hbar.mk (ofZ (- 2 ^ 63)) HbarUnit.Hbar)
  /\ Hbar.fromTinybar (Hbar.Big (ofZ (- 2 ^ 63 - 1))) =
    Ok (Hbar.mk (ofZ (- 2 ^ 63 - 1)) HbarUnit.Hbar).
Proof.
  split; [|split; [|split]]; rewrite fromTinybar_Big_ofZ; reflexivity.
Qed.

(** C3: [multipliedBy] at 1 hbar times 2: the result holds
    2 * 10^16 tinybar, not 2 * 10^8; and 100 hbar times 10 is refused
    as out of range although 1000 hbar is representable. *)
Theorem multipliedBy_rescales :
  Hbar.multipliedBy (Hbar.mk (ofZ (10 ^ 8)) HbarUnit.Hbar)
                    (Hbar.Number (ofZ 2)) =
    Ok (Hbar.mk (ofZ (2 * 10 ^ 8 * 10 ^ 8)) HbarUnit.Hbar)
  /\ Hbar.new (Hbar.Number (ofZ 1)) =
    Ok (Hbar.mk (ofZ (10 ^ 8)) HbarUnit.Hbar)
  /\ returns (Hbar.multipliedBy (Hbar.mk (ofZ (100 * 10 ^ 8)) HbarUnit.Hbar)
                                (Hbar.Number (ofZ 10))) = false
  /\ Hbar.new (Hbar.Number (ofZ 1000)) =
    Ok (Hbar.mk (ofZ (1000 * 10 ^ 8)) HbarUnit.Hbar).
Proof.
  split; [|split; [|split]].
  - rewrite (multipliedBy_integer _ _ (10 ^ 8) 2) by reflexivity.
    reflexivity.
  - rewrite (new_integer _ (inject_Z 1) (10 ^ 8)) by reflexivity.
    reflexivity.
  - rewrite (multipliedBy_integer _ _ (100 * 10 ^ 8) 10) by reflexivity.
    reflexivity.
  - rewrite (new_integer _ (inject_Z 1000) (1000 * 10 ^ 8)) by reflexivity.
    reflexivity.
Qed.

(** C5, as stated, fails: the constructor given "0.000000001" (a tenth
    of a tinybar, in hbars) stores the fraction 0.1; and [fromTinybar]
    rounds: given "4e-13" it stores 0, given "5e-13" it stores
    0.000000000001, the division by 10^8 being rounded to 20 decimal
    places. *)
Lemma new_stores_fraction :
  Hbar.new (Hbar.Str (Fin (1 # 1000000000))) =
    Ok (Hbar.mk (Fin (1 # 10)) HbarUnit.Hbar)
  /\ isInteger (Fin (1 # 10)) = false
  /\ Hbar.fromTinybar (Hbar.Str (Fin (4 # 10000000000000))) =
    Ok (Hbar.mk (ofZ 0) HbarUnit.Hbar)
  /\ Hbar.fromTinybar (Hbar.Str (Fin (5 # 10000000000000))) =
    Ok (Hbar.mk (Fin (1 # 1000000000000)) HbarUnit.Hbar).
Proof. split; [|split; [|split]]; vm_compute; reflexivity. Qed.

(** C5, amended.  Whenever the input times the unit's factor is an
    integer not above 2^63 - 1, every construction path stores exactly
    that integer: the constructor stores [amount * 10^8], [from] stores
    [amount * factor unit], [fromTinybar] stores [amount] (a number
    given to [fromTinybar] has to be below 2^53).  The constructor's
    own product is exact for every finite input it accepts.
    Integrality is not enforced, and [from] and [fromTinybar] round:
    the constructor stores 0.1 tinybar for "0.000000001", and
    [fromTinybar], which divides by 10^8 to 20 decimal places, stores 0
    for "4e-13" and 0.000000000001 for "5e-13"; so does
    [from(_, HbarUnit.Tinybar)], which stores 0 for "4e-13". *)
Theorem construction_stores_exact_integer
    (amount : Hbar.Value) (unit : HbarUnit.t) (q : Q) :
  Hbar.toBigNumber amount = Fin q ->
  (forall z, (q * inject_Z (10 ^ 8) == inject_Z z)%Q -> z <= 2 ^ 63 - 1 ->
     Hbar.new amount = Ok (Hbar.mk (ofZ z) HbarUnit.Hbar))
  /\ (forall z, (q * inject_Z (HbarUnit.factor unit) == inject_Z z)%Q ->
     z <= 2 ^ 63 - 1 ->
     Hbar.from amount unit = Ok (Hbar.mk (ofZ z) HbarUnit.Hbar))
  /\ (forall z, (q == inject_Z z)%Q -> z <= 2 ^ 63 - 1 ->
     Hbar.imprecise amount = false ->
     Hbar.fromTinybar amount = Ok (Hbar.mk (ofZ z) HbarUnit.Hbar))
  /\ (forall z, isInteger (ofZ z) = true)
  /\ (forall h, Hbar.new amount = Ok h ->
      exists t, Hbar._tinybar h = Fin t
                /\ (t == q * inject_Z (10 ^ 8))%Q)
  /\ Hbar.new (Hbar.Str (Fin (1 # 1000000000))) =
     Ok (Hbar.mk (Fin (1 # 10)) HbarUnit.Hbar)
  /\ Hbar.fromTinybar (Hbar.Str (Fin (4 # 10000000000000))) =
     Ok (Hbar.mk (ofZ 0) HbarUnit.Hbar)
  /\ Hbar.fromTinybar (Hbar.Str (Fin (5 # 10000000000000))) =
     Ok (Hbar.mk (Fin (1 # 1000000000000)) HbarUnit.Hbar)
  /\ Hbar.from (Hbar.Str (Fin (4 # 10000000000000))) HbarUnit.Tinybar =
     Ok (Hbar.mk (ofZ 0) HbarUnit.Hbar).
Proof.
  intros Hq.
  split; [|split; [|split; [|split; [|split; [|split; [|split; [|split]]]]]]].
  - intros z Hz Hmax. rewrite (new_integer _ _ _ Hq Hz).
    destruct (Z.ltb_spec (2 ^ 63 - 1) z); [lia | reflexivity].
  - intros z Hz Hmax. rewrite (from_integer _ _ _ _ Hq Hz).
    destruct (Z.ltb_spec (2 ^ 63 - 1) z); [lia | reflexivity].
  - intros z Hz Hmax Hi. rewrite (fromTinybar_integer _ _ _ Hq Hz Hi).
    destruct (Z.ltb_spec (2 ^ 63 - 1) z); [lia | reflexivity].
  - intros z. unfold isInteger, ofZ. now rewrite Qred_inject_Z.
  - intros h Hh. rewrite new_unfold, Hq in Hh. cbv zeta in Hh.
    change (ofZ (HbarUnit.factor HbarUnit.Hbar))
      with (Fin (inject_Z (10 ^ 8))) in Hh.
    rewrite multipliedBy_Fin in Hh. cbn [Hbar._tinybar] in Hh.
    destruct (isGreaterThan _ Hbar.maxTinybar); [discriminate Hh|].
    injection Hh as <-. cbn [Hbar._tinybar].
    exists (Qred (q * inject_Z (10 ^ 8))).
    split; [reflexivity | apply Qred_correct].
  - vm_compute; reflexivity.
  - vm_compute; reflexivity.
  - vm_compute; reflexivity.
  - vm_compute; reflexivity.
Qed.

(** The amended C5 at the string "1.5": 150000000 tinybar as hbars,
    150 tinybar as microbars. *)
Lemma construction_stores_exact_integer_witness :
  Hbar.toBigNumber (Hbar.Str (Fin (3 # 2))) = Fin (3 # 2)
  /\ Hbar.new (Hbar.Str (Fin (3 # 2))) =
     Ok (Hbar.mk (ofZ 150000000) HbarUnit.Hbar)
  /\ Hbar.from (Hbar.Str (Fin (3 # 2))) HbarUnit.Microbar =
     Ok (Hbar.mk (ofZ 150) HbarUnit.Hbar).
Proof.
  split; [reflexivity|].
  destruct (construction_stores_exact_integer
              (Hbar.Str (Fin (3 # 2))) HbarUnit.Microbar (3 # 2) eq_refl)
    as (Hnew & Hfrom & _).
  split.
  - apply Hnew; [reflexivity | lia].
  - apply Hfrom; [reflexivity | lia].
Defined.

(** C8, as stated, fails on large negative numbers: the number -2^53
    passes the guard and becomes an amount. *)
Lemma fromTinybar_negative_number_accepted :
  Hbar.fromTinybar (Hbar.Number (ofZ (- 2 ^ 53))) =
    Ok (Hbar.mk (ofZ (- 2 ^ 53)) HbarUnit.Hbar).
Proof.
  rewrite (fromTinybar_integer _ (inject_Z (- 2 ^ 53)) (- 2 ^ 53))
    by reflexivity.
  reflexivity.
Qed.

(** C8, amended: every number at or above 2^53, +Infinity included,
    makes [fromTinybar] fail with an [HbarRangeError] on the guard's
    branch, before the amount is read as tinybars.  The error is the
    one the range check of [new Hbar(amount)] raises while the guard
    builds its own: it carries the amount read as hbars, times 10^8,
    which is above [maxTinybar]. *)
Theorem fromTinybar_imprecise_number (n : BigNumber.t) :
  isGreaterThanOrEqualTo n (ofZ (2 ^ 53)) = true ->
  Hbar.fromTinybar (Hbar.Number n) =
    Throw (Hbar.RangeError
             (Hbar.mk (multipliedBy n (ofZ (10 ^ 8))) HbarUnit.Hbar))
  /\ isGreaterThan (multipliedBy n (ofZ (10 ^ 8))) Hbar.maxTinybar = true.
Proof.
  intros Hn.
  assert (Hgt : isGreaterThan (multipliedBy n (ofZ (10 ^ 8)))
                  Hbar.maxTinybar = true).
  { destruct n as [|a|q].
    - discriminate Hn.
    - destruct a; [discriminate Hn | reflexivity].
    - unfold ofZ at 1. rewrite multipliedBy_Fin, maxTinybar_val.
      unfold isGreaterThanOrEqualTo, comparedTo, ofZ in Hn.
      unfold isGreaterThan, comparedTo, ofZ.
      assert (Hq : (inject_Z (2 ^ 53) <= q)%Q).
      { revert Hn.
        destruct (Qcompare_spec q (inject_Z (2 ^ 53))) as [E|E|E];
          intros Hn.
        - rewrite E. apply Qle_refl.
        - discriminate Hn.
        - now apply Qlt_le_weak. }
      assert (Hlt : (inject_Z (2 ^ 63 - 1) < Qred (q * inject_Z (10 ^ 8)))%Q).
      { rewrite Qred_correct.
        change (inject_Z (2 ^ 63 - 1)) with (9223372036854775807 # 1)%Q.
        change (inject_Z (10 ^ 8)) with (100000000 # 1)%Q.
        change (inject_Z (2 ^ 53)) with (9007199254740992 # 1)%Q in Hq.
        lra. }
      destruct (Qcompare_spec (Qred (q * inject_Z (10 ^ 8)))
                              (inject_Z (2 ^ 63 - 1))) as [E|E|E].
      + rewrite E in Hlt. now apply Qlt_irrefl in Hlt.
      + exfalso. apply (Qlt_irrefl (inject_Z (2 ^ 63 - 1))).
        now apply Qlt_trans with (Qred (q * inject_Z (10 ^ 8))).
      + reflexivity. }
  split; [|exact Hgt].
  unfold Hbar.fromTinybar, Hbar.imprecise. rewrite Hn.
  rewrite new_unfold. cbv zeta. cbn [Hbar.toBigNumber Hbar._tinybar].
  change (HbarUnit.factor HbarUnit.Hbar) with (10 ^ 8).
  rewrite Hgt. reflexivity.
Qed.

(** The amended C8 at the number 2^53. *)
Lemma fromTinybar_imprecise_number_witness :
  isGreaterThanOrEqualTo (ofZ (2 ^ 53)) (ofZ (2 ^ 53)) = true
  /\ Hbar.fromTinybar (Hbar.Number (ofZ (2 ^ 53))) =
     Throw (Hbar.RangeError
              (Hbar.mk (multipliedBy (ofZ (2 ^ 53)) (ofZ (10 ^ 8)))
                       HbarUnit.Hbar)).
Proof.
  split; [reflexivity|].
  apply (fromTinybar_imprecise_number (ofZ (2 ^ 53))). reflexivity.
Defined.

(** C9: for every unit [D] and every integer [v] of the signed 64-bit
    range, [fromTinybar v] succeeds, and the decimal [as(D)] gives for
    it, handed to [from(_, D)], yields an amount of exactly [v]
    tinybar.  The amount may come in any of the three forms; a number
    has to be below 2^53, which [imprecise] tests and which never holds
    of the BigNumber and string forms. *)
Theorem fromTinybar_as_from_roundtrip
    (v : Z) (D : HbarUnit.t) (amount : Hbar.Value) :
  - 2 ^ 63 <= v <= 2 ^ 63 - 1 ->
  Hbar.toBigNumber amount = ofZ v ->
  Hbar.imprecise amount = false ->
  exists h,
    Hbar.fromTinybar amount = Ok h
    /\ Hbar.from (Hbar.Big (Hbar.as_ h D)) D =
       Ok (Hbar.mk (ofZ v) HbarUnit.Hbar).
Proof.
  intros Hrange Hv Hi.
  assert (Hmax : (2 ^ 63 - 1 <? v) = false) by (apply Z.ltb_ge; lia).
  exists (Hbar.mk (ofZ v) HbarUnit.Hbar). split.
  - rewrite (fromTinybar_integer amount (inject_Z v) v Hv (Qeq_refl _) Hi).
    now rewrite Hmax.
  - rewrite (as_integer _ v D) by reflexivity.
    rewrite (from_integer _ D
               (Qred (inject_Z v / inject_Z (HbarUnit.factor D))) v).
    + now rewrite Hmax.
    + reflexivity.
    + rewrite Qred_correct. field.
      apply inject_Z_nonzero, factor_pos.
Qed.

(** C9 at 123456789 tinybar, through kilobars. *)
Lemma fromTinybar_as_from_roundtrip_witness :
  - 2 ^ 63 <= 123456789 <= 2 ^ 63 - 1
  /\ exists h,
    Hbar.fromTinybar (Hbar.Str (ofZ 123456789)) = Ok h
    /\ Hbar.from (Hbar.Big (Hbar.as_ h HbarUnit.Kilobar)) HbarUnit.Kilobar =
       Ok (Hbar.mk (ofZ 123456789) HbarUnit.Hbar).
Proof.
  split; [lia|].
  apply (fromTinybar_as_from_roundtrip
           123456789 HbarUnit.Kilobar (Hbar.Str (ofZ 123456789)));
    [lia | reflexivity | reflexivity].
Defined.

End HbarClaims.

(** ** Facts about the string operations *)

Section JsStringFacts.

Import JsString.
Local Open Scope string_scope.

Lemma append_nil_r (s : string) : s ++ "" = s.
Proof. induction s as [|c s IH]; simpl; [reflexivity | now rewrite IH]. Qed.

Lemma append_assoc (s1 s2 s3 : string) : (s1 ++ s2) ++ s3 = s1 ++ s2 ++ s3.
Proof.
  induction s1 as [|c s1 IH]; simpl; [reflexivity | now rewrite IH].
Qed.

Lemma all_append (p : ascii -> bool) (s1 s2 : string) :
  all p (s1 ++ s2) = all p s1 && all p s2.
Proof.
  induction s1 as [|c s1 IH]; simpl; [reflexivity|].
  now rewrite IH, andb_assoc.
Qed.

Lemma all_impl (p q : ascii -> bool) (s : string) :
  (forall c, p c = true -> q c = true) -> all p s = true -> all q s = true.
Proof.
  intros Hpq. induction s as [|c s IH]; simpl; [reflexivity|].
  intros H. apply andb_true_iff in H as [Hc Hs].
  now rewrite (Hpq c Hc), IH.
Qed.

Lemma lacks_append (c : ascii) (s1 s2 : string) :
  lacks c (s1 ++ s2) = lacks c s1 && lacks c s2.
Proof. apply all_append. Qed.

Lemma lacks_cons (c x : ascii) (s : string) :
  lacks c (String x s) = negb (Ascii.eqb x c) && lacks c s.
Proof. reflexivity. Qed.

(** A separator does not start where its first character is not. *)
Lemma prefix_first (c0 x : ascii) (sep' s : string) :
  Ascii.eqb x c0 = false -> prefix (String c0 sep') (String x s) = false.
Proof.
  intros Hx. simpl. destruct (Ascii.ascii_dec c0 x) as [E|_].
  - subst x. now rewrite Ascii.eqb_refl in Hx.
  - reflexivity.
Qed.

Lemma prefix_append (sep s : string) : prefix sep (sep ++ s) = true.
Proof.
  induction sep as [|c sep IH]; simpl.
  - now destruct s.
  - destruct (Ascii.ascii_dec c c) as [_|N]; [exact IH | now destruct N].
Qed.

Lemma split_go_lacks (c0 : ascii) (sep' s1 : string) :
  lacks c0 s1 = true ->
  forall cur rest,
    split_go (String c0 sep') 0 cur (s1 ++ rest) =
    split_go (String c0 sep') 0 (cur ++ s1) rest.
Proof.
  induction s1 as [|x s1 IH]; intros Hl cur rest.
  - now rewrite append_nil_r.
  - rewrite lacks_cons in Hl. apply andb_true_iff in Hl as [Hx Hl].
    apply negb_true_iff in Hx.
    change (String x s1 ++ rest) with (String x (s1 ++ rest)).
    cbn [split_go]. rewrite (prefix_first _ _ _ _ Hx).
    rewrite (IH Hl). f_equal.
    now rewrite append_assoc.
Qed.

Lemma split_go_skip (sep t : string) :
  forall cur rest,
    split_go sep (String.length t) cur (t ++ rest) = split_go sep 0 cur rest.
Proof.
  induction t as [|x t IH]; intros cur rest; [reflexivity|].
  simpl. apply IH.
Qed.

Lemma split_go_sep (c0 : ascii) (sep' cur rest : string) :
  split_go (String c0 sep') 0 cur (String c0 sep' ++ rest) =
  cur :: split_go (String c0 sep') 0 "" rest.
Proof.
  change (String c0 sep' ++ rest) with (String c0 (sep' ++ rest)).
  cbn [split_go].
  change (String c0 (sep' ++ rest)) with (String c0 sep' ++ rest).
  rewrite prefix_append. f_equal.
  cbn [String.length]. rewrite Nat.sub_succ, Nat.sub_0_r.
  apply split_go_skip.
Qed.

(** A string without the separator's first character is one piece. *)
Lemma split_lacks (c0 : ascii) (sep' s : string) :
  lacks c0 s = true -> split s (String c0 sep') = [s].
Proof.
  intros Hl. unfold split.
  rewrite <- (append_nil_r s) at 1.
  now rewrite (split_go_lacks _ _ _ Hl).
Qed.

(** The first piece ends at the first separator. *)
Lemma split_at (c0 : ascii) (sep' s1 s2 : string) :
  lacks c0 s1 = true ->
  split (s1 ++ String c0 sep' ++ s2) (String c0 sep') =
  s1 :: split s2 (String c0 sep').
Proof.
  intros Hl. unfold split.
  rewrite (split_go_lacks _ _ _ Hl). apply split_go_sep.
Qed.

Lemma includes_char (c : ascii) (s : string) :
  includes s (String c "") = negb (lacks c s).
Proof.
  induction s as [|x s IH]; [reflexivity|].
  rewrite lacks_cons. cbn [includes]. rewrite IH.
  simpl. destruct (Ascii.ascii_dec c x) as [E|N].
  - subst x. rewrite Ascii.eqb_refl. now destruct s.
  - assert (Hx : Ascii.eqb x c = false).
    { apply Ascii.eqb_neq. congruence. }
    now rewrite Hx.
Qed.

End JsStringFacts.

(** ** Facts about Long *)

Section LongFacts.

Local Open Scope Z_scope.





(** A number between -1 and 1 loses all of its value. *)
Lemma fromNumber_fraction (q : Q) :
  (- (1) < q)%Q -> (q < 1)%Q -> Long.fromNumber (JsFinite q) = 0.
Proof.
  destruct q as [n d]. unfold Qlt. cbn [Qnum Qden Qopp]. intros Hlo Hhi.
  unfold Long.fromNumber, Qle_bool. cbn [Qnum Qden inject_Z Qplus].
  destruct (Z.leb_spec (n * 1) (- 2 ^ 63 * Zpos d)); [exfalso; lia|].
  destruct (Z.leb_spec (2 ^ 63 * Zpos (d * 1)) ((n * 1 + 1 * Zpos d) * 1));
    [exfalso; lia|].
  apply Z.quot_small_iff; lia.
Qed.

End LongFacts.

(** ** Facts about the transaction identifier *)

Section TransactionIdFacts.

Import JsString.
Context {AccountId ProtoAccountID ProtoTimestamp : Type}.
Context {accountApi : AccountIdApi AccountId}.
Context {accountProto : Protobuf AccountId ProtoAccountID}.
Context {timestampProto : Protobuf Timestamp.t ProtoTimestamp}.
Context {Bytes Start Length : Type}.

Local Open Scope string_scope.
Local Open Scope result_scope.

Lemma split_at_char (c : ascii) (s1 s2 : string) :
  lacks c s1 = true ->
  split (s1 ++ String c s2) (String c "") = s1 :: split s2 (String c "").
Proof. apply (split_at c "" s1 s2). Qed.

Lemma lacks_of_all (p : ascii -> bool) (c : ascii) (s : string) :
  p c = false -> all p s = true -> lacks c s = true.
Proof.
  intros Hc. apply all_impl. intros x Hx.
  apply negb_true_iff, Ascii.eqb_neq. intros E. subst x. congruence.
Qed.

Lemma lacks_numeric (c : ascii) (s : string) :
  isNumeric c = false -> all isNumeric s = true -> lacks c s = true.
Proof. apply lacks_of_all. Qed.

(** The constructor does not throw: it stores its first three
    arguments as they are, and the nonce unless it is missing or
    zero. *)
Lemma new_eq (a : Bytes) (b : Start) (c : Length)
    (nonce : nullable TransactionId.NonceArg) :
  TransactionId.new a b c nonce =
  Ok (TransactionId.mk a b c
        (match nonce with
         | Val (TransactionId.ANumber n) =>
             if numberDiffersFromZero n then Some (Long.fromNumber n)
             else None
         | Val (TransactionId.ALong l) =>
             if (l =? 0)%Z then None else Some l
         | _ => None
         end)
        Undefined true).
Proof.
  unfold TransactionId.new, TransactionId.setNonce, TransactionId.freeze.
  destruct nonce as [| |[l|n]]; try reflexivity; cbn;
    [destruct (l =? 0)%Z | destruct (numberDiffersFromZero n)]; reflexivity.
Qed.

(** [fromString] returns on no text: where the splitting does not
    throw, the lookup of [TransactionId] does. *)
Lemma fromString_never_returns (wholeId : string) :
  returns (TransactionId.fromString (Bytes := Bytes) (Start := Start)
             (Length := Length) wholeId) = false.
Proof.
  unfold TransactionId.fromString.
  destruct (split wholeId "@") as [|account [|rest l]]; try reflexivity.
  destruct (split rest ".") as [|seconds [|rest' l']]; try reflexivity.
  match goal with
  | |- returns (bind ?parts _) = _ => destruct parts; reflexivity
  end.
Qed.

(** None of the methods written to return a new identifier returns
    one. *)
Lemma Produced_new (id : TransactionId.t Bytes Start Length) :
  TransactionId.Produced (AccountId := AccountId)
                         (ProtoAccountID := ProtoAccountID)
                         (ProtoTimestamp := ProtoTimestamp) id ->
  exists a b c nonce, TransactionId.new a b c nonce = Ok id.
Proof.
  intros P. destruct P as [a b c n id H|a v id H|this id H|w id H|p id H].
  - eauto.
  - discriminate H.
  - discriminate H.
  - pose proof (fromString_never_returns w) as N. rewrite H in N.
    discriminate N.
  - unfold TransactionId._fromProtobuf in H.
    destruct (TransactionId.accountID p); [|discriminate H].
    destruct (TransactionId.transactionValidStart p); discriminate H.
Qed.

End TransactionIdFacts.

(** ** The transaction identifier: claims *)

Section TransactionIdClaims.

Import JsString.
Context {AccountId ProtoAccountID ProtoTimestamp : Type}.
Context {accountApi : AccountIdApi AccountId}.
Context {accountProto : Protobuf AccountId ProtoAccountID}.
Context {timestampProto : Protobuf Timestamp.t ProtoTimestamp}.
Context {Bytes Start Length : Type}.

Local Open Scope string_scope.
Local Open Scope Z_scope.

(** The protobuf form of an identifier, with the collaborators of this
    section. *)
Local Abbreviation toProtobuf :=
  (TransactionId._toProtobuf (AccountId := AccountId)
     (ProtoAccountID := ProtoAccountID) (ProtoTimestamp := ProtoTimestamp)).



End TransactionIdClaims.

(** ** The transaction identifier on the spec's examples *)

Section TransactionIdExamples.

Local Open Scope string_scope.
Local Open Scope Z_scope.

(** The identifiers built from an account, a timestamp and a flag. *)
Local Abbreviation identifier :=
  (TransactionId.t EntityId.t Timestamp.t (nullable bool)).

Local Abbreviation fromString :=
  (TransactionId.fromString (Bytes := EntityId.t) (Start := Timestamp.t)
     (Length := nullable bool)).

Local Abbreviation toString :=
  (TransactionId.toString (AccountId := EntityId.t)).

Local Abbreviation compare :=
  (TransactionId.compare (AccountId := EntityId.t)).

Local Abbreviation toProtobuf :=
  (TransactionId._toProtobuf (AccountId := EntityId.t)
     (ProtoAccountID := EntityId.t) (ProtoTimestamp := Timestamp.t)).

Local Abbreviation fromProtobuf :=
  (TransactionId._fromProtobuf (ProtoAccountID := EntityId.t)
     (ProtoTimestamp := Timestamp.t) (Bytes := EntityId.t)
     (Start := Timestamp.t) (Length := nullable bool)).

(** C2: the identifier of the spec's first example, built by the
    constructor from the owner 0.0.1001, the validStart
    1614385200.123456789, scheduled false and no nonce, has no text
    form: [toString] reads [this.accountId], which the constructor did
    not assign, and throws.  Its canonical text is not parsed either:
    [fromString] splits it and then fails on the name [TransactionId].
    Neither depends on the example: [toString] throws on every
    identifier the constructor builds, and [fromString] returns on no
    text. *)
Theorem toString_throws_fromString_not_defined :
  TransactionId.new Sample.owner Sample.validStart (Val false) Null =
    Ok (Sample.identifier (Val false) None)
  /\ toString (Sample.identifier (Val false) None) =
    Throw (Error "neither `accountId` nor `validStart` are set")
  /\ fromString "0.0.1001@1614385200.123456789" =
    Throw TransactionId.notDefined
  /\ (forall a b c n (id : identifier),
        TransactionId.new a b c n = Ok id ->
        toString id =
        Throw (Error "neither `accountId` nor `validStart` are set"))
  /\ (forall wholeId, returns (fromString wholeId) = false).
Proof.
  split; [reflexivity|]. split; [reflexivity|].
  split; [vm_compute; reflexivity|].
  split.
  - intros a b c n id _. reflexivity.
  - intros wholeId. unfold TransactionId.fromString.
    destruct (JsString.split wholeId "@") as [|account [|rest l]];
      try reflexivity.
    destruct (JsString.split rest ".") as [|seconds [|rest' l']];
      try reflexivity.
    match goal with
    | |- returns (bind ?parts _) = _ => destruct parts; reflexivity
    end.
Qed.





(** C7: two identifiers the constructor builds from one owner and one
    validStart, differing in scheduled and in nonce.  [compare] does
    not return 0 on them: it reads [this.accountId], which the
    constructor did not assign, and throws a TypeError when it calls
    [compare] on it.  It does so on any two identifiers. *)
Theorem compare_throws :
  TransactionId.new Sample.owner Sample.validStart (Val true)
    (Val (Sample.number 117)) =
    Ok (Sample.identifier (Val true) (Some 117))
  /\ TransactionId.new Sample.owner Sample.validStart (Val false) Null =
    Ok (Sample.identifier (Val false) None)
  /\ compare (Sample.identifier (Val true) (Some 117))
             (Sample.identifier (Val false) None) =
    Throw TransactionId.undefinedRest
  /\ (forall this other : identifier,
        compare this other = Throw TransactionId.undefinedRest).
Proof.
  split; [reflexivity|]. split; [reflexivity|].
  split; [reflexivity|]. intros this other. reflexivity.
Qed.

End TransactionIdExamples.

(** ** The exchange-rate mappers: claims *)

Section ExchangeRateClaims.

Import ExchangeRate.

(** C10: whenever [exchangeRateSetToSdk] returns, the [currentRate]
    and the [nextRate] of the record it returns are equal, both being
    the projection of the set's current rate; the set's next rate does
    not reach the result: replacing it changes nothing.  The mapper
    returns when the set has a current rate with an expiration time,
    and throws otherwise. *)
Theorem exchangeRateSetToSdk_next_is_current (set : ProtoExchangeRateSet) :
  (forall r, exchangeRateSetToSdk set = Ok r ->
     currentRate r = nextRate r
     /\ exchangeRateToSdk (getCurrentrate set) = Ok (currentRate r))
  /\ (forall next,
        exchangeRateSetToSdk (mkProtoSet (getCurrentrate set) next) =
        exchangeRateSetToSdk set)
  /\ (returns (exchangeRateSetToSdk set) =
      match getCurrentrate set with
      | Some rate =>
          match getExpirationtime rate with
          | Some _ => true
          | None => false
          end
      | None => false
      end).
Proof.
  destruct set as [current next]. unfold exchangeRateSetToSdk.
  cbn [getCurrentrate].
  split; [|split].
  - intros r. destruct (exchangeRateToSdk current) as [rate|e]; cbn [bind].
    + intros E. injection E as <-. split; reflexivity.
    + discriminate.
  - reflexivity.
  - destruct current as [rate|]; [|reflexivity].
    unfold exchangeRateToSdk. cbn.
    destruct (getExpirationtime rate); reflexivity.
Qed.

End ExchangeRateClaims.

(** ** The amount type: further properties *)

Section HbarExtras.

Import BigNumber.
Local Open Scope Z_scope.

(** What the constructor returns: the amount times 10^8, not above
    [maxTinybar]. *)
Lemma new_Ok (amount : Hbar.Value) (h : Hbar.t) :
  Hbar.new amount = Ok h ->
  h = Hbar.mk (multipliedBy (Hbar.toBigNumber amount) (ofZ (10 ^ 8)))
              HbarUnit.Hbar
  /\ isGreaterThan (Hbar._tinybar h) Hbar.maxTinybar = false.
Proof.
  rewrite new_unfold. cbv zeta. cbn [Hbar._tinybar].
  change (HbarUnit.factor HbarUnit.Hbar) with (10 ^ 8).
  destruct (isGreaterThan _ Hbar.maxTinybar) eqn:E; [discriminate|].
  intros H. injection H as <-. split; [reflexivity | exact E].
Qed.

(** X1: every amount the class hands out (by the constructor, [from],
    [fromTinybar], [multipliedBy], [plus], [minus] or [negated]) has a
    tinybar value that is not greater than [maxTinybar], and the unit
    hbar. *)
Theorem produced_within_max (h : Hbar.t) :
  Hbar.Produced h ->
  isGreaterThan (Hbar._tinybar h) Hbar.maxTinybar = false
  /\ Hbar._unit h = HbarUnit.Hbar.
Proof.
  intros P. destruct P as [amount h H|amount unit h H|amount h H
                          |this amount h H|this o h H|this o h H|this h H];
    try (destruct (new_Ok _ _ H) as [-> Hgt];
         split; [exact Hgt | reflexivity]).
  unfold Hbar.fromTinybar in H. destruct (Hbar.imprecise amount).
  - destruct (Hbar.new amount); cbn in H; discriminate H.
  - destruct (new_Ok _ _ H) as [-> Hgt]. split; [exact Hgt | reflexivity].
Qed.

(** X1 at [new Hbar(3)]. *)
Lemma produced_within_max_witness :
  Hbar.Produced (Hbar.mk (ofZ 300000000) HbarUnit.Hbar)
  /\ isGreaterThan (ofZ 300000000) Hbar.maxTinybar = false.
Proof.
  assert (P : Hbar.Produced (Hbar.mk (ofZ 300000000) HbarUnit.Hbar)).
  { apply (Hbar.by_new (Hbar.Number (ofZ 3))). reflexivity. }
  split; [exact P|].
  apply (produced_within_max (Hbar.mk (ofZ 300000000) HbarUnit.Hbar) P).
Defined.

Lemma Qle_bool_compare (p q : Q) :
  Qle_bool p q = match (p ?= q)%Q with Gt => false | _ => true end.
Proof.
  unfold Qle_bool, Qcompare. rewrite Z.leb_compare. reflexivity.
Qed.

(** X2: what [_check] lets a finite value through.  With negatives
    allowed it passes exactly when it is at most 2^63 - 1; without, a
    value other than zero passes exactly when it is positive and at
    most 2^63 - 1.  A negative value is never too small.  NaN always
    passes, +Infinity never does, -Infinity passes when negatives are
    allowed.  (Without negatives allowed, what happens to a zero
    depends on its sign, which is not represented here.) *)
Theorem _check_outcome (allowNegative : bool) (u : HbarUnit.t) (q : Q) :
  ~ (q == 0)%Q ->
  returns (Hbar._check allowNegative (Hbar.mk (Fin q) u)) =
    (allowNegative || Qle_bool 0 q)
    && Qle_bool q (inject_Z (2 ^ 63 - 1))
  /\ (forall z, returns (Hbar._check true (Hbar.mk (Fin z) u)) =
                Qle_bool z (inject_Z (2 ^ 63 - 1)))
  /\ Hbar._check allowNegative (Hbar.mk NaN u) = Ok tt
  /\ returns (Hbar._check allowNegative (Hbar.mk (Infinity false) u)) = false
  /\ returns (Hbar._check allowNegative (Hbar.mk (Infinity true) u)) =
     allowNegative.
Proof.
  intros _.
  assert (H : forall (a : bool) (p : Q),
             returns (Hbar._check a (Hbar.mk (Fin p) u)) =
             (a || Qle_bool 0 p) && Qle_bool p (inject_Z (2 ^ 63 - 1))).
  { intros a p. unfold Hbar._check. cbn [Hbar._tinybar].
    rewrite maxTinybar_val. unfold isNegative, isLessThan, isGreaterThan,
      comparedTo, ofZ, qneg.
    rewrite (Qle_bool_compare p).
    assert (Hneg : (Qnum p <? 0) = negb (Qle_bool 0 p)).
    { unfold Qle_bool. cbn. rewrite Z.mul_1_r, Z.ltb_antisym. reflexivity. }
    rewrite Hneg.
    destruct (Qle_bool 0 p) eqn:E0; cbn [negb andb orb].
    - rewrite orb_true_r. cbn [andb].
      destruct (p ?= inject_Z (2 ^ 63 - 1))%Q; reflexivity.
    - (* negative: below the maximum *)
      assert (Hlt : (p ?= inject_Z (2 ^ 63 - 1))%Q = Lt).
      { apply (proj1 (Qlt_alt _ _)). unfold Qle_bool in E0. cbn in E0.
        rewrite Z.mul_1_r in E0. apply Z.leb_gt in E0.
        unfold Qlt. cbn. lia. }
      rewrite Hlt. destruct a; reflexivity. }
  split; [apply H|].
  split; [intros z; apply (H true z)|].
  split; [|split]; destruct allowNegative; reflexivity.
Qed.

(** X2 at -5 tinybar, negatives not allowed. *)
Lemma _check_outcome_witness :
  ~ (- (5 # 1) == 0)%Q
  /\ returns (Hbar._check false
                (Hbar.mk (Fin (- (5 # 1))) HbarUnit.Hbar)) = false.
Proof.
  assert (H : ~ (- (5 # 1) == 0)%Q) by (intros E; discriminate E).
  split; [exact H|].
  destruct (_check_outcome false HbarUnit.Hbar (- (5 # 1)) H) as [E _].
  exact E.
Defined.

(** X3: [value()] gives back the amount the constructor was given, and
    [asTinybar()] that amount times 10^8, whenever the amount is a whole
    number of tinybars not above the maximum. *)
Theorem value_new (amount : Hbar.Value) (q : Q) (z : Z) :
  Hbar.toBigNumber amount = Fin q ->
  (q * inject_Z (10 ^ 8) == inject_Z z)%Q ->
  z <= 2 ^ 63 - 1 ->
  exists h,
    Hbar.new amount = Ok h
    /\ Hbar.value h = Fin (Qred q)
    /\ Hbar.asTinybar h = ofZ z.
Proof.
  intros Hq Hz Hmax. exists (Hbar.mk (ofZ z) HbarUnit.Hbar).
  split; [|split].
  - rewrite (new_integer _ _ _ Hq Hz).
    destruct (Z.ltb_spec (2 ^ 63 - 1) z); [lia | reflexivity].
  - unfold Hbar.value. rewrite (as_integer (Hbar.mk (ofZ z) HbarUnit.Hbar) z HbarUnit.Hbar eq_refl).
    f_equal. apply Qred_complete. rewrite <- Hz.
    change (HbarUnit.factor HbarUnit.Hbar) with (10 ^ 8).
    field. discriminate.
  - reflexivity.
Qed.

(** X3 at the string "1.25". *)
Lemma value_new_witness :
  Hbar.toBigNumber (Hbar.Str (Fin (5 # 4))) = Fin (5 # 4)
  /\ exists h,
    Hbar.new (Hbar.Str (Fin (5 # 4))) = Ok h
    /\ Hbar.value h = Fin (Qred (5 # 4))
    /\ Hbar.asTinybar h = ofZ 125000000.
Proof.
  split; [reflexivity|].
  apply (value_new (Hbar.Str (Fin (5 # 4))) (5 # 4) 125000000);
    [reflexivity | reflexivity | lia].
Defined.

(** X4: [as(unit)] is exact on whole tinybars: for every unit, the
    decimal it returns times the unit's tinybar count is the tinybar
    value again. *)
Theorem as_exact (z : Z) (u0 unit : HbarUnit.t) :
  multipliedBy (Hbar.as_ (Hbar.mk (ofZ z) u0) unit)
               (HbarUnit._toTinybarCount unit) = ofZ z.
Proof.
  rewrite (as_integer (Hbar.mk (ofZ z) u0) z unit eq_refl),
    _toTinybarCount_factor.
  unfold ofZ at 1. rewrite multipliedBy_Fin. unfold ofZ. f_equal.
  apply Qred_integer. rewrite Qred_correct. field.
  apply inject_Z_nonzero, factor_pos.
Qed.

(** X5: the overloads agree.  Where [from(amount, unit)] gives an
    amount of whole tinybars, [plus], [minus], [comparedTo] and
    [isEqualTo] called with the raw [amount] and [unit] do what they do
    when called with that amount. *)
Theorem unit_operand_as_converted (this : Hbar.t) (amount : Hbar.Value)
    (unit : HbarUnit.t) (q : Q) (z : Z) (o : Hbar.t) :
  Hbar.toBigNumber amount = Fin q ->
  (q * inject_Z (HbarUnit.factor unit) == inject_Z z)%Q ->
  Hbar.from amount unit = Ok o ->
  Hbar.plus this (Hbar.OfUnit amount unit) = Hbar.plus this (Hbar.OfHbar o)
  /\ Hbar.minus this (Hbar.OfUnit amount unit) =
     Hbar.minus this (Hbar.OfHbar o)
  /\ Hbar.comparedTo this (Hbar.OfUnit amount unit) =
     Hbar.comparedTo this (Hbar.OfHbar o)
  /\ Hbar.isEqualTo this (Hbar.OfUnit amount unit) =
     Hbar.isEqualTo this (Hbar.OfHbar o).
Proof.
  intros Hq Hz Hfrom.
  assert (E : Hbar.operandTinybar (Hbar.OfUnit amount unit) =
              Hbar.operandTinybar (Hbar.OfHbar o)).
  { rewrite (from_integer _ _ _ _ Hq Hz) in Hfrom.
    destruct (2 ^ 63 - 1 <? z); [discriminate Hfrom|].
    injection Hfrom as <-.
    cbn [Hbar.operandTinybar Hbar._tinybar]. unfold Hbar.convertToTinybar.
    rewrite Hq, _toTinybarCount_factor. unfold ofZ.
    rewrite multipliedBy_Fin. f_equal. now apply Qred_integer. }
  unfold Hbar.plus, Hbar.minus, Hbar.comparedTo, Hbar.isEqualTo.
  rewrite E. repeat split.
Qed.

(** X5 at 5 tinybar plus 2 millibars. *)
Lemma unit_operand_as_converted_witness :
  Hbar.from (Hbar.Number (ofZ 2)) HbarUnit.Millibar =
    Ok (Hbar.mk (ofZ 200000) HbarUnit.Hbar)
  /\ Hbar.plus (Hbar.mk (ofZ 5) HbarUnit.Hbar)
               (Hbar.OfUnit (Hbar.Number (ofZ 2)) HbarUnit.Millibar) =
     Hbar.plus (Hbar.mk (ofZ 5) HbarUnit.Hbar)
               (Hbar.OfHbar (Hbar.mk (ofZ 200000) HbarUnit.Hbar)).
Proof.
  split; [reflexivity|].
  apply (unit_operand_as_converted (Hbar.mk (ofZ 5) HbarUnit.Hbar)
           (Hbar.Number (ofZ 2)) HbarUnit.Millibar (inject_Z 2) 200000
           (Hbar.mk (ofZ 200000) HbarUnit.Hbar));
    reflexivity.
Defined.

Lemma BigNumber_plus_comm (x y : BigNumber.t) : plus x y = plus y x.
Proof.
  destruct x as [|a|p], y as [|b|q]; try reflexivity.
  - destruct a, b; reflexivity.
  - unfold plus. f_equal. apply Qred_complete. apply Qplus_comm.
Qed.

(** X6: [a.plus(b)] and [b.plus(a)] have the same outcome, the same
    amount or the same range error, for any two amounts. *)
Theorem plus_commutes (a b : Hbar.t) :
  Hbar.plus a (Hbar.OfHbar b) = Hbar.plus b (Hbar.OfHbar a).
Proof.
  unfold Hbar.plus. cbn [Hbar.operandTinybar].
  now rewrite BigNumber_plus_comm.
Qed.

(** X7: [minus] undoes [plus].  For whole tinybar values [a] and [b]
    with [a] and [a + b] not above the maximum, [a.plus(b)] holds
    [a + b] tinybar and [a.plus(b).minus(b)] holds [a] again. *)
Theorem plus_then_minus (a b : Z) (ua ub : HbarUnit.t) :
  a <= 2 ^ 63 - 1 ->
  a + b <= 2 ^ 63 - 1 ->
  exists sum,
    Hbar.plus (Hbar.mk (ofZ a) ua) (Hbar.OfHbar (Hbar.mk (ofZ b) ub)) = Ok sum
    /\ Hbar._tinybar sum = ofZ (a + b)
    /\ Hbar.minus sum (Hbar.OfHbar (Hbar.mk (ofZ b) ub)) =
       Ok (Hbar.mk (ofZ a) HbarUnit.Hbar).
Proof.
  intros Ha Hab. exists (Hbar.mk (ofZ (a + b)) HbarUnit.Hbar).
  split; [|split].
  - rewrite (plus_integer _ _ a b) by reflexivity.
    destruct (Z.ltb_spec (2 ^ 63 - 1) (a + b)); [lia | reflexivity].
  - reflexivity.
  - rewrite (minus_integer _ _ (a + b) b) by reflexivity.
    replace (a + b - b) with a by lia.
    destruct (Z.ltb_spec (2 ^ 63 - 1) a); [lia | reflexivity].
Qed.

(** X7 at 7 tinybar plus -10 tinybar. *)
Lemma plus_then_minus_witness :
  7 <= 2 ^ 63 - 1 /\ 7 + (-10) <= 2 ^ 63 - 1
  /\ exists sum,
    Hbar.plus (Hbar.mk (ofZ 7) HbarUnit.Hbar)
              (Hbar.OfHbar (Hbar.mk (ofZ (-10)) HbarUnit.Hbar)) = Ok sum
    /\ Hbar._tinybar sum = ofZ (7 + (-10))
    /\ Hbar.minus sum (Hbar.OfHbar (Hbar.mk (ofZ (-10)) HbarUnit.Hbar)) =
       Ok (Hbar.mk (ofZ 7) HbarUnit.Hbar).
Proof.
  split; [lia|]. split; [lia|].
  apply (plus_then_minus 7 (-10) HbarUnit.Hbar HbarUnit.Hbar); lia.
Defined.

(** X8: [negated] on whole tinybars.  It yields the opposite value and
    fails exactly when that is above 2^63 - 1, that is for values below
    -(2^63 - 1); within these bounds negating twice gives the value
    back. *)
Theorem negated_twice (a : Z) (u : HbarUnit.t) :
  - (2 ^ 63 - 1) <= a <= 2 ^ 63 - 1 ->
  Hbar.negated (Hbar.mk (ofZ a) u) =
    Ok (Hbar.mk (ofZ (- a)) HbarUnit.Hbar)
  /\ Hbar.negated (Hbar.mk (ofZ (- a)) HbarUnit.Hbar) =
    Ok (Hbar.mk (ofZ a) HbarUnit.Hbar)
  /\ (forall b u', b < - (2 ^ 63 - 1) ->
       Hbar.negated (Hbar.mk (ofZ b) u') =
       Throw (Hbar.RangeError (Hbar.mk (ofZ (- b)) HbarUnit.Hbar))).
Proof.
  intros Hr. split; [|split].
  - rewrite (negated_integer (Hbar.mk (ofZ a) u) a eq_refl).
    destruct (Z.ltb_spec (2 ^ 63 - 1) (- a)); [exfalso; lia | reflexivity].
  - rewrite (negated_integer (Hbar.mk (ofZ (- a)) HbarUnit.Hbar) (- a)
               eq_refl).
    rewrite Z.opp_involutive.
    destruct (Z.ltb_spec (2 ^ 63 - 1) a); [exfalso; lia | reflexivity].
  - intros b u' Hb.
    rewrite (negated_integer (Hbar.mk (ofZ b) u') b eq_refl).
    destruct (Z.ltb_spec (2 ^ 63 - 1) (- b)); [reflexivity | exfalso; lia].
Qed.

(** X8 at 42 tinybar. *)
Lemma negated_twice_witness :
  - (2 ^ 63 - 1) <= 42 <= 2 ^ 63 - 1
  /\ Hbar.negated (Hbar.mk (ofZ 42) HbarUnit.Hbar) =
     Ok (Hbar.mk (ofZ (- 42)) HbarUnit.Hbar)
  /\ Hbar.negated (Hbar.mk (ofZ (- 42)) HbarUnit.Hbar) =
     Ok (Hbar.mk (ofZ 42) HbarUnit.Hbar).
Proof.
  split; [lia|].
  destruct (negated_twice 42 HbarUnit.Hbar) as (A & B & _); [lia|].
  split; [exact A | exact B].
Defined.

(** X9: the comparisons are those of the tinybar values: on whole
    tinybars they agree with the integer comparisons, and so does
    [isZero].  On a value other than zero, [isNegative] and
    [isPositive] are the sign tests of the integer.  (On a zero they
    tell its sign, which is not represented here.) *)
Theorem comparisons_of_integers (a b : Z) (ua ub : HbarUnit.t) :
  let this := Hbar.mk (ofZ a) ua in
  let other := Hbar.OfHbar (Hbar.mk (ofZ b) ub) in
  Hbar.comparedTo this other = Some (a ?= b)
  /\ Hbar.isEqualTo this other = (a =? b)
  /\ Hbar.isLessThan this other = (a <? b)
  /\ Hbar.isLessThanOrEqualTo this other = (a <=? b)
  /\ Hbar.isGreaterThan this other = (b <? a)
  /\ Hbar.isGreaterThanOrEqualTo this other = (b <=? a)
  /\ Hbar.isZero this = (a =? 0)
  /\ (a <> 0 ->
      Hbar.isNegative this = (a <? 0) /\ Hbar.isPositive this = (0 <? a)).
Proof.
  cbv zeta.
  unfold Hbar.comparedTo, Hbar.isEqualTo, Hbar.isLessThan,
    Hbar.isLessThanOrEqualTo, Hbar.isGreaterThan,
    Hbar.isGreaterThanOrEqualTo, Hbar.isZero, Hbar.isNegative,
    Hbar.isPositive.
  cbn [Hbar.operandTinybar Hbar._tinybar].
  unfold isEqualTo, isLessThan, isLessThanOrEqualTo, isGreaterThan,
    isGreaterThanOrEqualTo, isZero, isNegative, isPositive, comparedTo,
    ofZ, qzero, qneg, Qcompare.
  cbn [Qnum Qden inject_Z]. rewrite !Z.mul_1_r.
  rewrite (Z.eqb_compare a b), (Z.ltb_compare a b), (Z.leb_compare a b).
  rewrite (Z.ltb_compare b a), (Z.leb_compare b a), (Z.compare_antisym a b).
  assert (Hsign : a <> 0 ->
                  (a <? 0) = (a <? 0) /\ negb (a <? 0) = (0 <? a)).
  { intros Ha. split; [reflexivity|].
    destruct (Z.ltb_spec a 0), (Z.ltb_spec 0 a); try reflexivity;
      exfalso; lia. }
  destruct (a ?= b); cbn; repeat split; apply Hsign; assumption.
Qed.

(** X10: the precision guard is in [fromTinybar] only.  A number that
    [new BigNumber] reads as an integer [d] from 2^53 up to the maximum
    ([d] is the value of the number's decimal text) is refused by
    [fromTinybar] and accepted by [from(_, HbarUnit.Tinybar)], which
    stores [d] tinybar. *)
Theorem from_has_no_precision_guard (d : Z) :
  2 ^ 53 <= d <= 2 ^ 63 - 1 ->
  Hbar.fromTinybar (Hbar.Number (ofZ d)) =
    Throw (Hbar.RangeError (Hbar.mk (ofZ (d * 10 ^ 8)) HbarUnit.Hbar))
  /\ Hbar.from (Hbar.Number (ofZ d)) HbarUnit.Tinybar =
     Ok (Hbar.mk (ofZ d) HbarUnit.Hbar).
Proof.
  intros Hn. split.
  - assert (Hge : isGreaterThanOrEqualTo (ofZ d) (ofZ (2 ^ 53)) = true).
    { unfold isGreaterThanOrEqualTo, comparedTo, ofZ, Qcompare.
      cbn [Qnum Qden inject_Z]. rewrite !Z.mul_1_r.
      destruct (Z.compare_spec d (2 ^ 53)); try reflexivity. exfalso; lia. }
    unfold Hbar.fromTinybar, Hbar.imprecise. rewrite Hge.
    rewrite (new_integer (Hbar.Number (ofZ d)) (inject_Z d) (d * 10 ^ 8)
               eq_refl) by now rewrite inject_Z_mult.
    destruct (Z.ltb_spec (2 ^ 63 - 1) (d * 10 ^ 8));
      [reflexivity | exfalso; lia].
  - rewrite (from_integer (Hbar.Number (ofZ d)) HbarUnit.Tinybar
               (inject_Z d) d eq_refl).
    + destruct (Z.ltb_spec (2 ^ 63 - 1) d); [exfalso; lia | reflexivity].
    + change (HbarUnit.factor HbarUnit.Tinybar) with 1. field.
Qed.

(** X10 at the number 2 ** 62, which is read as 4611686018427388000. *)
Lemma from_has_no_precision_guard_witness :
  2 ^ 53 <= 4611686018427388000 <= 2 ^ 63 - 1
  /\ Hbar.from (Hbar.Number (ofZ 4611686018427388000)) HbarUnit.Tinybar =
     Ok (Hbar.mk (ofZ 4611686018427388000) HbarUnit.Hbar).
Proof.
  split; [lia|].
  apply (from_has_no_precision_guard 4611686018427388000). lia.
Defined.

End HbarExtras.

(** ** The transaction identifier: further properties *)

Section TransactionIdExtras.

Import JsString.
Context {AccountId ProtoAccountID ProtoTimestamp : Type}.
Context {accountApi : AccountIdApi AccountId}.
Context {accountProto : Protobuf AccountId ProtoAccountID}.
Context {timestampProto : Protobuf Timestamp.t ProtoTimestamp}.
Context {Bytes Start Length : Type}.

Local Open Scope string_scope.
Local Open Scope Z_scope.

Local Abbreviation fromString :=
  (TransactionId.fromString (Bytes := Bytes) (Start := Start)
     (Length := Length)).

Local Abbreviation fromProtobuf :=
  (TransactionId._fromProtobuf (ProtoAccountID := ProtoAccountID)
     (ProtoTimestamp := ProtoTimestamp) (Bytes := Bytes) (Start := Start)
     (Length := Length)).

Local Abbreviation toProtobuf :=
  (TransactionId._toProtobuf (AccountId := AccountId)
     (ProtoAccountID := ProtoAccountID) (ProtoTimestamp := ProtoTimestamp)).

(** X11: an identifier the class hands out is frozen: [setNonce] and
    [setScheduled] throw on it, whatever they are given. *)
Theorem produced_is_frozen (id : TransactionId.t Bytes Start Length) :
  TransactionId.Produced (AccountId := AccountId)
                         (ProtoAccountID := ProtoAccountID)
                         (ProtoTimestamp := ProtoTimestamp) id ->
  TransactionId.frozen id = true
  /\ (forall nonce,
        TransactionId.setNonce id nonce =
        Throw (TransactionId.readOnly "nonce"))
  /\ (forall scheduled,
        TransactionId.setScheduled id scheduled =
        Throw (TransactionId.readOnly "scheduled")).
Proof.
  intros P. destruct (Produced_new _ P) as (a & b & c & n & H).
  rewrite new_eq in H. injection H as <-.
  unfold TransactionId.setNonce, TransactionId.setScheduled.
  cbn [TransactionId.frozen]. repeat split.
Qed.

(** X12: what the constructor stores.  It does not throw; the first
    three arguments are stored as given and [scheduled] is left unset.
    The nonce is stored as absent exactly when the argument is
    [undefined], [null], a Long of value 0 or the number 0.  The test
    against 0 comes before [Long.fromNumber] drops the fraction of a
    number: NaN and the numbers other than 0 between -1 and 1 are
    stored as a nonce that is present and 0. *)
Theorem new_nonce_stored (a : Bytes) (b : Start) (c : Length)
    (n : nullable TransactionId.NonceArg) :
  exists id,
    TransactionId.new a b c n = Ok id
    /\ TransactionId.foreignTransactionBytes id = a
    /\ TransactionId.payloadStart id = b
    /\ TransactionId.payloadLength id = c
    /\ TransactionId.scheduled id = Undefined
    /\ (TransactionId.nonce id = None <->
        n = Undefined \/ n = Null \/ n = Val (TransactionId.ALong 0)
        \/ exists q, (q == 0)%Q
                     /\ n = Val (TransactionId.ANumber (JsFinite q)))
    /\ (n = Val (TransactionId.ANumber JsNaN) ->
        TransactionId.nonce id = Some 0)
    /\ (forall q, n = Val (TransactionId.ANumber (JsFinite q)) ->
        ~ (q == 0)%Q -> (- (1) < q)%Q -> (q < 1)%Q ->
        TransactionId.nonce id = Some 0).
Proof.
  eexists. split; [apply new_eq|].
  cbn [TransactionId.foreignTransactionBytes TransactionId.payloadStart
       TransactionId.payloadLength TransactionId.scheduled
       TransactionId.nonce].
  do 4 (split; [reflexivity|]).
  split; [|split].
  - destruct n as [| |[l|[|neg|q]]].
    + split; auto.
    + split; auto.
    + destruct (Z.eqb_spec l 0) as [->|Hl]; split; auto.
      * discriminate.
      * intros [E|[E|[E|[q [_ E]]]]]; try discriminate E.
        injection E as E. contradiction.
    + split; [discriminate|].
      intros [E|[E|[E|[q [_ E]]]]]; discriminate E.
    + split; [discriminate|].
      intros [E|[E|[E|[q [_ E]]]]]; discriminate E.
    + cbn [numberDiffersFromZero].
      destruct (Qeq_bool q 0) eqn:Eq; cbn [negb]; split.
      * intros _. do 3 right. exists q. split; [|reflexivity].
        now apply Qeq_bool_iff.
      * reflexivity.
      * discriminate.
      * intros [E|[E|[E|[q' [Hq' E]]]]]; try discriminate E.
        injection E as <-. apply Qeq_bool_iff in Hq'. congruence.
  - intros ->. reflexivity.
  - intros q -> Hq Hlo Hhi. cbn [numberDiffersFromZero].
    destruct (Qeq_bool q 0) eqn:Eq.
    + apply Qeq_bool_iff in Eq. contradiction.
    + cbn [negb]. now rewrite fromNumber_fraction.
Qed.

(** X15: texts with a component missing.  A text without [@] and a
    text whose part after the [@] has no dot make [fromString] throw a
    TypeError (a method is called on [undefined]). *)
Theorem fromString_missing_component (O R : string) :
  lacks "@" O = true ->
  lacks "@" R = true ->
  lacks "." R = true ->
  fromString O = Throw TransactionId.undefinedRest
  /\ fromString (O ++ "@" ++ R) = Throw TransactionId.undefinedRest.
Proof.
  intros HO HR Hdot. unfold TransactionId.fromString. split.
  - now rewrite (split_lacks "@" "" O HO).
  - change (O ++ "@" ++ R) with (O ++ String "@" R).
    rewrite (split_at_char "@" O R HO), (split_lacks "@" "" R HR).
    now rewrite (split_lacks "." "" R Hdot).
Qed.

(** X16: texts with every component in place.  On a text made of an
    account without [@], numeric seconds and nanoseconds, and
    optionally the scheduled marker and a numeric nonce, in all four
    combinations, the splitting goes through and [fromString] fails at
    its last statement, on the name [TransactionId]. *)
Theorem fromString_wellformed_not_defined (O S N : string) (b : bool)
    (K : option string) :
  lacks "@" O = true ->
  all isNumeric S = true ->
  all isNumeric N = true ->
  (forall k, K = Some k -> all isNumeric k = true) ->
  fromString
    (O ++ "@" ++ S ++ "." ++ N ++ (if b then "?scheduled" else "")
       ++ match K with Some k => "/" ++ k | None => "" end) =
  Throw TransactionId.notDefined.
Proof.
  intros HO HS HN HK.
  set (nn := match K with Some k => "/" ++ k | None => "" end).
  set (sch := if b then "?scheduled" else "").
  assert (Hnn : forall c, isNumeric c = false -> Ascii.eqb "/" c = false ->
                          lacks c nn = true).
  { intros c Hc Hs. subst nn. destruct K as [k|]; [|reflexivity].
    change ("/" ++ k) with (String "/" k). rewrite lacks_cons, Hs.
    cbn [negb andb]. apply lacks_numeric; auto. }
  assert (Hsch : forall c, lacks c "?scheduled" = true -> lacks c sch = true).
  { intros c Hc. subst sch. destruct b; [exact Hc | reflexivity]. }
  unfold TransactionId.fromString.
  change (O ++ "@" ++ S ++ "." ++ N ++ sch ++ nn)
    with (O ++ String "@" (S ++ String "." (N ++ sch ++ nn))).
  rewrite (split_at_char "@" O _ HO).
  rewrite (split_lacks "@" "").
  2:{ rewrite lacks_append. rewrite (lacks_numeric "@" _ eq_refl HS).
      rewrite lacks_cons. cbn [Ascii.eqb Bool.eqb negb andb].
      rewrite !lacks_append, (lacks_numeric "@" _ eq_refl HN).
      rewrite Hsch by reflexivity. now rewrite Hnn. }
  rewrite (split_at_char "." S _ (lacks_numeric "." _ eq_refl HS)).
  rewrite (split_lacks "." "").
  2:{ rewrite !lacks_append, (lacks_numeric "." _ eq_refl HN).
      rewrite Hsch by reflexivity. now rewrite Hnn. }
  rewrite !includes_char.
  destruct b; subst sch.
  - (* scheduled *)
    replace (lacks "?" (N ++ "?scheduled" ++ nn)) with false.
    2:{ rewrite lacks_append. simpl. now rewrite andb_false_r. }
    cbn [negb].
    rewrite (split_at "?" "scheduled" N nn (lacks_numeric "?" _ eq_refl HN)).
    rewrite (split_lacks "?" "scheduled") by now apply Hnn.
    rewrite includes_char.
    subst nn. destruct K as [k|]; reflexivity.
  - (* not scheduled *)
    change (N ++ "" ++ nn) with (N ++ nn).
    subst nn. destruct K as [k|].
    + assert (Hk : all isNumeric k = true) by now apply HK.
      replace (lacks "?" (N ++ "/" ++ k)) with true.
      2:{ symmetry. rewrite lacks_append, (lacks_numeric "?" _ eq_refl HN).
          change ("/" ++ k) with (String "/" k). rewrite lacks_cons.
          cbn [Ascii.eqb Bool.eqb negb andb]. now apply lacks_numeric. }
      cbn [negb].
      replace (lacks "/" (N ++ "/" ++ k)) with false.
      2:{ rewrite lacks_append. simpl. now rewrite andb_false_r. }
      cbn [negb].
      change (N ++ "/" ++ k) with (N ++ String "/" k).
      rewrite (split_at_char "/" N k (lacks_numeric "/" _ eq_refl HN)).
      rewrite (split_lacks "/" "") by now apply lacks_numeric.
      reflexivity.
    + rewrite append_nil_r.
      rewrite (lacks_numeric "?" _ eq_refl HN).
      rewrite (lacks_numeric "/" _ eq_refl HN). reflexivity.
Qed.

(** X19: [_fromProtobuf] returns on no input: it throws an Error when
    [accountID] or [transactionValidStart] is missing and fails on the
    name [TransactionId] otherwise.  [_toProtobuf] reads
    [this.accountId] and [this.validStart], which no identifier has,
    and writes [null] for both: the protobuf form of every identifier
    is refused by [_fromProtobuf] for its missing fields. *)
Theorem _fromProtobuf_never_returns
    (proto : TransactionId.ITransactionID ProtoAccountID ProtoTimestamp)
    (id : TransactionId.t Bytes Start Length) :
  returns (fromProtobuf proto) = false
  /\ (TransactionId.accountID proto = None
      \/ TransactionId.transactionValidStart proto = None ->
      fromProtobuf proto =
      Throw (Error
        "Neither `nonce` or `accountID` and `transactionValidStart` are set"))
  /\ (forall accountID transactionValidStart,
        TransactionId.accountID proto = Some accountID ->
        TransactionId.transactionValidStart proto =
          Some transactionValidStart ->
        fromProtobuf proto = Throw TransactionId.notDefined)
  /\ TransactionId.accountID (toProtobuf id) = None
  /\ TransactionId.transactionValidStart (toProtobuf id) = None
  /\ fromProtobuf (toProtobuf id) =
     Throw (Error
       "Neither `nonce` or `accountID` and `transactionValidStart` are set").
Proof.
  unfold TransactionId._fromProtobuf.
  split; [|split; [|split; [|split; [|split]]]]; try reflexivity.
  - destruct (TransactionId.accountID proto);
      [destruct (TransactionId.transactionValidStart proto)|]; reflexivity.
  - intros [-> | ->]; [reflexivity|].
    destruct (TransactionId.accountID proto); reflexivity.
  - intros a v -> ->. reflexivity.
Qed.

End TransactionIdExtras.

(** ** The further properties on the spec's examples *)

Section TransactionIdExtraExamples.

Local Open Scope string_scope.
Local Open Scope Z_scope.

Lemma Sample_produced (scheduled : nullable bool) :
  TransactionId.Produced (AccountId := EntityId.t)
                         (ProtoAccountID := EntityId.t)
                         (ProtoTimestamp := Timestamp.t)
                         (Sample.identifier scheduled (Some 117)).
Proof.
  apply (TransactionId.by_new Sample.owner Sample.validStart
           scheduled (Val (Sample.number 117))).
  reflexivity.
Defined.

(** X11 at the scheduled example identifier with nonce 117. *)
Lemma produced_is_frozen_witness :
  TransactionId.setNonce (Sample.identifier (Val true) (Some 117))
                         (Sample.number 5) =
    Throw (TransactionId.readOnly "nonce")
  /\ TransactionId.setScheduled (Sample.identifier (Val true) (Some 117))
                                (Val false) =
    Throw (TransactionId.readOnly "scheduled").
Proof.
  destruct (produced_is_frozen (Sample.identifier (Val true) (Some 117))
              (Sample_produced (Val true))) as (_ & A & B).
  split; [apply A | apply B].
Defined.

(** X15 at an account alone and at an account with seconds alone. *)
Lemma fromString_missing_component_witness :
  JsString.lacks "@" "0.0.1001" = true
  /\ JsString.lacks "." "1614385200" = true
  /\ TransactionId.fromString (Bytes := EntityId.t) (Start := Timestamp.t)
       (Length := nullable bool) "0.0.1001" =
     Throw TransactionId.undefinedRest
  /\ TransactionId.fromString (Bytes := EntityId.t) (Start := Timestamp.t)
       (Length := nullable bool) ("0.0.1001" ++ "@" ++ "1614385200") =
     Throw TransactionId.undefinedRest.
Proof.
  split; [reflexivity|]. split; [reflexivity|].
  apply (fromString_missing_component (Bytes := EntityId.t)
           (Start := Timestamp.t) (Length := nullable bool)
           "0.0.1001" "1614385200"); reflexivity.
Defined.

(** X16 at the text of the spec's last example. *)
Lemma fromString_wellformed_not_defined_witness :
  JsString.lacks "@" "0.0.1001" = true
  /\ TransactionId.fromString (Bytes := EntityId.t) (Start := Timestamp.t)
       (Length := nullable bool)
       "0.0.1001@1614385200.123456789?scheduled/117" =
     Throw TransactionId.notDefined.
Proof.
  split; [reflexivity|].
  apply (fromString_wellformed_not_defined (Bytes := EntityId.t)
           (Start := Timestamp.t) (Length := nullable bool)
           "0.0.1001" "1614385200" "123456789" true (Some "117"));
    try reflexivity.
  intros k E. injection E as <-. reflexivity.
Defined.

End TransactionIdExtraExamples.

(** ** The contract-creation builder: properties *)

Section ContractCreateTransactionExtras.

Import ContractCreateTransaction.
Context {FileIdLike ProtoFileID PublicKey ProtoKey : Type}.
Context {AccountIdLike ProtoAccountID Duration : Type}.
Context {ContractFunctionParams Bytes Gas : Type}.
Variable FileId_toProto : FileIdLike -> ProtoFileID.
Variable _toProtoKey : PublicKey -> ProtoKey.
Variable AccountId_toProto : AccountIdLike -> ProtoAccountID.
Variable newDuration : Z -> Duration.
Variable _build : ContractFunctionParams -> Bytes.
Variable String_ : Gas -> string.

Local Open Scope Z_scope.

Lemma hasFileid_chain (calls : list Call) (this : t) :
  hasFileid (_body (chain FileId_toProto _toProtoKey AccountId_toProto newDuration
                      _build String_ this calls)) =
  hasFileid (_body this) || existsb isSetBytecodeFileId calls.
Proof.
  revert this. induction calls as [|c calls IH]; intros this.
  - cbn. now rewrite orb_false_r.
  - unfold chain in *. cbn [fold_left existsb]. rewrite IH.
    destruct c; cbn; try reflexivity.
    now rewrite orb_true_r.
Qed.

(** X20: validation and the bytecode file.  After any chain of setter
    calls on a new builder, [_doValidate] leaves the errors as they are
    when the chain has a [setBytecodeFileId], and otherwise adds the one
    message [.setBytecodeFile() required] behind them. *)
Theorem _doValidate_chain (calls : list Call) (errors : list string) :
  _doValidate
    (chain FileId_toProto _toProtoKey AccountId_toProto newDuration
           _build String_ (new newDuration) calls) errors =
  if existsb isSetBytecodeFileId calls
  then errors
  else errors ++ [".setBytecodeFile() required"%string].
Proof.
  unfold _doValidate. rewrite hasFileid_chain. cbn [new setAutoRenewPeriod _body hasFileid fileid orb].
  destruct (existsb isSetBytecodeFileId calls); reflexivity.
Qed.

(** X21: the auto-renew period is never missing.  After any chain of
    setter calls on a new builder it is the duration of the last
    [setAutoRenewPeriod] of the chain, and that of 7890000 seconds
    (131500 * 60) when the chain has none. *)
Theorem autorenewperiod_always_set (calls : list Call) :
  autorenewperiod
    (_body (chain FileId_toProto _toProtoKey AccountId_toProto newDuration
                  _build String_ (new newDuration) calls)) =
  Some (newDuration (lastAutoRenewPeriod 7890000 calls)).
Proof.
  assert (H : forall (cs : list Call) (this : t) (seconds : Z),
            autorenewperiod (_body this) = Some (newDuration seconds) ->
            autorenewperiod
              (_body (chain FileId_toProto _toProtoKey AccountId_toProto
                            newDuration _build String_ this cs)) =
            Some (newDuration (lastAutoRenewPeriod seconds cs))).
  { induction cs as [|c cs IH]; intros this s H.
    - exact H.
    - unfold chain, lastAutoRenewPeriod in *. cbn [fold_left].
      apply IH. destruct c; cbn; try exact H. reflexivity. }
  apply H. reflexivity.
Qed.

End ContractCreateTransactionExtras.

